(* ===== verification/_CoqProject ===== *)
-Q . S2P
Prelude.v
PyStr.v
NpTable.v
FileSystem.v
RecordBuilder.v
ScenePartition.v
Manifest.v
Script.v
