(* ===== verification/Prelude.v ===== *)
(** * Verification of the ScanNet preprocessing script

    Program: [src/lib/datasets/preprocessing/scannet.py] (84 lines, one
    top-level script, no functions).  It converts raw ScanNet scans into
    processed point clouds (lines 22-48), splits the training scenes into
    train/val (lines 50-61), checks the lists (63-67) and writes three
    manifest files (69-75).  Its parts, in the order the script runs
    them, and the files of this development that model them (the order of
    [_CoqProject]; each file holds one [Module] of the same name):

    - [Prelude] (this file): the shared vocabulary.  Python strings are
      [str := list ascii]; paths are [Path := list str] (one component per
      element, from the root); the exceptions the script can raise are the
      constructors of [PyError] (an [AssertionError] carries the line of
      its [assert]); effects are the state-and-error monad [PyM S A :=
      S -> res A * S], written with [let* x := c in k] and [c ;; k]
      (scope [py_scope]), with [passert] for [assert] and [pfor] for a
      [for] loop.  An exception keeps the state reached so far, as Python
      does: files written before a failing [assert] stay on disk.  The
      tactics [py_split] (run a program one statement at a time) and
      [by_decide] (evaluate a decidable proposition by [vm_compute]) and
      the hint databases [scannet] and [scannet_rw] live here.
    - [PyStr]: the [str] and [pathlib] operations the script uses
      ([str.endswith], [s in f], [f.split('_')[0]], the slice
      [f.name[:-k]], [Path.name/.stem/.suffix/.parent] with CPython's
      rule for the suffix dot, [Path / 'a/b'], [writelines] of [f + '
']).
    - [NpTable]: the numpy arrays of lines 28-48 as tables of rationals
      [Q] with a width ([np.unique(..).size], [a[:, :k]], [a[:, -1]] with
      its [IndexError], [np.allclose] with numpy's default tolerances and
      broadcasting, [np.zeros_like], [np.hstack], [np.empty((0, 3))], and
      the set-of-tuples comparison of line 48).
    - [FileSystem]: the constants of lines 9-14 ([Module Config]) and the
      directory tree ([Module FileSystem]): a set of directories and a
      [gmap] from paths to contents; [mkdir(parents=True, exist_ok=True)],
      [glob], [is_file], [open(.., 'w')] with [IsADirectoryError],
      [NotADirectoryError] and [FileNotFoundError], and the codec of [lib.pc_utils]
      ([read_plyfile], [save_point_cloud]), which is not under [src/] and
      is modelled from the spec: a file stores the table written to it.
      The predicate [preserves I c] (the statement [c] keeps the
      property [I] of the tree, whatever its outcome) with one rule per
      monad operation and the tactic [preserves_tac], and the frame
      property [kept_below root fs0] (below [root], the tree is [fs0]).
    - [RecordBuilder]: the loop body, lines 27-48, as [process_file]
      (with [load_label] for lines 32-39), the abstract specification
      [record_spec] of what one scan becomes, and the trees of the spec's
      scenarios, on which the witnesses evaluate the theorems.
    - [ScenePartition]: lines 51-61, [partition]; the order that
      [list(set(..))] and [shuffle] give is an argument [shuffle], and the
      theorems hold for every permutation.
    - [Manifest]: lines 63-75, [sanity_checks] and [write_manifests].
    - [Script]: the whole run, lines 22-75, as [run], composed of
      [preprocess_subset] (one entry of [SUBSETS]) and the above.

    What the theorems show (claim ids in the doc comments):
    - the loop body always raises (C1): the crop check of line 48 compares
      the empty [all_points] with the cloud's points, and line 30 has
      required at least one point; degenerate clouds fail at line 30
      before any write (C13); so the script ends normally only when no
      raw scan exists (C9), and otherwise its outcome is the body's on the
      first scan (C10);
    - the run never changes the raw data below [SCANNET_RAW_PATH] (C2):
      [mkdir], the saved records and the manifests all go below
      [SCANNET_OUT_PATH], provided no file name of the input has a ['/'];
    - the body refines [record_spec] (C3): validation failures raise
      before any write, a built record is saved at [out_path] before line
      48 raises; it writes only there, a 7-column rectangular table with
      one row per point (C14); output and label names (C11, C12);
    - the split sends every scene to train and none to val (C4, C5);
    - the sanity checks pass on the script's lists (C7); the manifests
      are written as the lists (C8) and parse back into them (C6); with
      no raw scan the run writes manifests listing the processed files
      already present, outputs of an earlier run included (C15).

    Bounds and fuel: none are needed.  Every loop of the script is a
    [for] over a finite list and is modelled by structural recursion on
    that list ([pfor]); every definition is total and executable, and the
    witnesses and scenarios are evaluated by [vm_compute].

    Not modelled: the commented-out bug-fix block of lines 77-84 and the
    constant [BUGS] it reads (lines 15-19), which never run; the byte
    format of PLY files (the codec is not under [src/]); float rounding
    and NaN (values are exact rationals); the order of a directory
    listing, which is the order of the model's sets ([os.scandir]'s order
    is unspecified and no theorem depends on it); the glob of line 26 is
    a lazy generator in Python and is listed when the loop starts, which
    is the same since the loop writes only under [SCANNET_OUT_PATH]. *)

From stdpp Require Export base list gmap strings.
From Stdlib Require Export Ascii.
From Stdlib Require String.

(** Python strings and paths. *)
Abbreviation str := (list ascii).
Abbreviation Path := (list str).

(** A Python string literal. *)
Definition py (s : string) : str := String.list_ascii_of_string s.

(** The exceptions the script can raise. *)
Inductive PyError :=
| AssertionError (line : nat)
| IndexError
| ValueError
| FileNotFoundError (p : Path)
| FileExistsError (p : Path)
| NotADirectoryError (p : Path)
| IsADirectoryError (p : Path)
| PlyFormatError (p : Path).

(** The outcome of a computation that may raise. *)
Inductive res (A : Type) :=
| Ok (a : A)
| Err (e : PyError).
Arguments Ok {A} a.
Arguments Err {A} e.

#[export] Instance PyError_eq_dec : EqDecision PyError.
Proof. solve_decision. Defined.
#[export] Instance res_eq_dec {A} `{EqDecision A} : EqDecision (res A).
Proof. solve_decision. Defined.

Definition res_bind {A B} (r : res A) (k : A -> res B) : res B :=
  match r with Ok a => k a | Err e => Err e end.

Definition is_ok {A} (r : res A) : bool :=
  match r with Ok _ => true | Err _ => false end.

(** Statements with effects on a state [S]: the state is kept when an
    exception is raised. *)
Definition PyM (S A : Type) := S -> res A * S.

Definition pret {S A} (a : A) : PyM S A := fun s => (Ok a, s).

Definition pbind {S A B} (c : PyM S A) (k : A -> PyM S B) : PyM S B :=
  fun s => match c s with
           | (Ok a, s') => k a s'
           | (Err e, s') => (Err e, s')
           end.

Definition praise {S A} (e : PyError) : PyM S A := fun s => (Err e, s).

(** [r] evaluated as an expression, without effect. *)
Definition plift {S A} (r : res A) : PyM S A := fun s => (r, s).

Definition pget {S} : PyM S S := fun s => (Ok s, s).
Definition pput {S} (s' : S) : PyM S unit := fun _ => (Ok tt, s').

(** [assert b] at line [line]. *)
Definition passert {S} (line : nat) (b : bool) : PyM S unit :=
  if b then pret tt else praise (AssertionError line).

Declare Scope py_scope.
Delimit Scope py_scope with py.
Notation "'let*' x := c 'in' k" := (pbind c (fun x => k))
  (at level 10, x name, c at level 100, k at level 200) : py_scope.
Notation "c ;; k" := (pbind c (fun _ => k))
  (at level 100, right associativity) : py_scope.
Open Scope py_scope.

(** [for x in l: body x]. *)
Fixpoint pfor {S A} (body : A -> PyM S unit) (l : list A) : PyM S unit :=
  match l with
  | [] => pret tt
  | x :: l' => body x ;; pfor body l'
  end.

Create HintDb scannet.
Create Rewrite HintDb scannet_rw.

(** ** Laws of the monad *)

Lemma pbind_pret {S A B} (a : A) (k : A -> PyM S B) s :
  pbind (pret a) k s = k a s.
Proof. reflexivity. Qed.

Lemma pbind_praise {S A B} e (k : A -> PyM S B) s :
  pbind (praise e) k s = (Err e, s).
Proof. reflexivity. Qed.

Lemma pbind_assoc {S A B C} (c : PyM S A) (k : A -> PyM S B) (k' : B -> PyM S C) s :
  pbind (pbind c k) k' s = pbind c (fun a => pbind (k a) k') s.
Proof. unfold pbind. destruct (c s) as [[a|e] s']; reflexivity. Qed.

Lemma pbind_ok {S A B} (c : PyM S A) (k : A -> PyM S B) s a s' :
  c s = (Ok a, s') -> pbind c k s = k a s'.
Proof. unfold pbind. intros ->. reflexivity. Qed.

Lemma pbind_err {S A B} (c : PyM S A) (k : A -> PyM S B) s e s' :
  c s = (Err e, s') -> pbind c k s = (Err e, s').
Proof. unfold pbind. intros ->. reflexivity. Qed.

Lemma passert_true {S} line (s : S) : passert line true s = (Ok tt, s).
Proof. reflexivity. Qed.

Lemma passert_false {S} line (s : S) :
  passert line false s = (Err (AssertionError line), s).
Proof. reflexivity. Qed.

(** A loop whose body always raises stops at its first element. *)
Lemma pfor_cons_err {S A} (body : A -> PyM S unit) x l s e s' :
  body x s = (Err e, s') -> pfor body (x :: l) s = (Err e, s').
Proof. intros H. simpl. exact (pbind_err _ _ _ _ _ H). Qed.

(** ** Generic list and option facts shared by the components *)

Lemma forallb_seq_S (f : nat -> bool) k n :
  forallb f (seq (S k) n) = forallb (fun i => f (S i)) (seq k n).
Proof. revert k. induction n as [|n IH]; intros k; simpl; [done | by rewrite IH]. Qed.

(** A check of every index [i < n] of two lists of length [n] is a check
    of the pairs of their elements. *)
Lemma forallb_seq_Forall2 {A} (P : A -> A -> bool) (d : A) (l1 l2 : list A) :
  length l1 = length l2 ->
  forallb (fun i => P (nth i l1 d) (nth i l2 d)) (seq 0 (length l1)) = true <->
  Forall2 (fun x y => P x y = true) l1 l2.
Proof.
  revert l2. induction l1 as [|x l1 IH]; intros [|y l2] Hlen; simpl in *; try done.
  rewrite forallb_seq_S, andb_true_iff, Forall2_cons. cbn beta iota.
  rewrite IH by lia. done.
Qed.

Lemma forallb_ext_in {A} (f g : A -> bool) l :
  (forall x, In x l -> f x = g x) -> forallb f l = forallb g l.
Proof.
  induction l as [|x l IH]; intros H; simpl; [done |].
  rewrite (H x (or_introl eq_refl)), IH; [done |]. intros y Hy. apply H. by right.
Qed.

Lemma Forall2_iff_in {A B} (P R : A -> B -> Prop) l1 l2 :
  (forall x y, In x l1 -> In y l2 -> P x y <-> R x y) ->
  Forall2 P l1 l2 <-> Forall2 R l1 l2.
Proof.
  revert l2. induction l1 as [|x l1 IH]; intros [|y l2] H; split; intros HF;
    inversion HF; subst; constructor.
  all: try (apply (H x y); [left | left |]; done).
  all: apply IH; [intros; apply H; by right | done].
Qed.

(** Python's [l[i]] on a list of length [n] when the index was broadcast
    from a dimension of size [n]: the index is unchanged. *)
Lemma bcast_index_eq n i : i < n -> (if Nat.eqb n 1 then 0 else i) = i.
Proof. intros H. destruct (Nat.eqb_spec n 1); lia. Qed.

Lemma zip_with_map {A B C D E} (f : C -> D -> E) (g : A -> C) (h : B -> D) l1 l2 :
  zip_with f (map g l1) (map h l2) = zip_with (fun x y => f (g x) (h y)) l1 l2.
Proof. revert l2. induction l1; intros [|??]; simpl; by f_equal. Qed.

Lemma filter_all {A} (P : A -> Prop) `{!forall x, Decision (P x)} (l : list A) :
  (forall x, x ∈ l -> P x) -> filter P l = l.
Proof.
  induction l as [|x l IH]; intros Hall; [done |].
  rewrite filter_cons_True by (apply Hall; by left). f_equal. apply IH.
  intros y Hy. apply Hall. by right.
Qed.

Lemma forallb_map {A B} (f : B -> bool) (g : A -> B) l :
  forallb f (map g l) = forallb (fun x => f (g x)) l.
Proof. induction l as [|x l IH]; simpl; [done | by rewrite IH]. Qed.

#[export] Hint Rewrite @pbind_pret @pbind_praise @passert_true @passert_false : scannet_rw.
#[export] Hint Resolve pbind_ok pbind_err pfor_cons_err : scannet.

(** Close a decidable goal about constants by computation. *)
Ltac by_decide := apply (proj1 (bool_decide_eq_true _)); vm_compute; reflexivity.

(** Run the monadic program in the goal one statement at a time. *)
Ltac py_simp :=
  repeat (autorewrite with scannet_rw in *; simpl in *;
          try rewrite pbind_assoc).

Lemma pbind_passert_true {S B} l (k : unit -> PyM S B) s : pbind (passert l true) k s = k tt s.
Proof. reflexivity. Qed.
Lemma pbind_passert_false {S B} l (k : unit -> PyM S B) s :
  pbind (passert l false) k s = (Err (AssertionError l), s).
Proof. reflexivity. Qed.
Lemma pbind_plift_ok {S A B} (a : A) (k : A -> PyM S B) s : pbind (plift (Ok a)) k s = k a s.
Proof. reflexivity. Qed.
Lemma pbind_plift_err {S A B} e (k : A -> PyM S B) s : pbind (plift (Err e)) k s = (Err e, s).
Proof. reflexivity. Qed.
Lemma pbind_pget {S B} (k : S -> PyM S B) s : pbind pget k s = k s s.
Proof. reflexivity. Qed.

(** Split the first statement of the monadic program in the goal: an
    [assert] on its condition, an expression on its value, any other
    statement on its outcome. *)
Ltac py_split :=
  match goal with
  | |- context [pbind (passert ?l ?b) ?k ?s] =>
      let H := fresh "Hassert" in
      destruct b eqn:H; [rewrite pbind_passert_true | rewrite pbind_passert_false]
  | |- context [pbind (plift ?r) ?k ?s] =>
      let H := fresh "Hval" in let a := fresh "a" in
      destruct r as [a|?e] eqn:H; [rewrite pbind_plift_ok | rewrite pbind_plift_err]
  | |- context [pbind pget ?k ?s] => rewrite pbind_pget
  | |- context [pbind ?c ?k ?s] =>
      let E := fresh "Hstep" in let a := fresh "a" in let s' := fresh "s" in
      destruct (c s) as [[a|?e] s'] eqn:E;
      [ rewrite (pbind_ok _ _ _ _ _ E) | rewrite (pbind_err _ _ _ _ _ E) ]
  end; cbv beta.
