(* ===== verification/PyStr.v ===== *)
(** * Python strings and [pathlib] paths used by the script

    [str] is [list ascii].  Each definition is the Python operation the
    script calls, with CPython's behaviour on the corner cases (empty
    strings, a missing separator, a name without a dot). *)
From S2P Require Import Prelude.

Module PyStr.

(** [f.endswith(suf)]; also the fnmatch pattern ['*' + suf]. *)
Definition endswith (f suf : str) : bool :=
  bool_decide (drop (length f - length suf) f = suf).

(** [f.startswith(pre)]. *)
Definition startswith (f pre : str) : bool :=
  bool_decide (take (length pre) f = pre).

(** [s in f] on strings: substring containment. *)
Fixpoint contains (s f : str) : bool :=
  startswith f s ||
  match f with
  | [] => false
  | _ :: f' => contains s f'
  end.

(** [f.split(sep)]: the pieces between separators, always at least one. *)
Fixpoint split_on (sep : ascii) (f : str) : list str :=
  match f with
  | [] => [[]]
  | c :: f' =>
      if ascii_dec c sep then [] :: split_on sep f'
      else match split_on sep f' with
           | w :: ws => (c :: w) :: ws
           | [] => [[c]]
           end
  end.

(** [f.split(sep)[0]]: the text before the first separator. *)
Fixpoint split_first (sep : ascii) (f : str) : str :=
  match f with
  | [] => []
  | c :: f' => if ascii_dec c sep then [] else c :: split_first sep f'
  end.

(** [f.rfind(c)], [None] for -1. *)
Fixpoint rfind_from (c : ascii) (f : str) (i : nat) (acc : option nat) : option nat :=
  match f with
  | [] => acc
  | x :: f' => rfind_from c f' (S i) (if ascii_dec x c then Some i else acc)
  end.
Definition rfind (c : ascii) (f : str) : option nat := rfind_from c f 0 None.

(** The dot that starts [PurePath.suffix]:
    [i = name.rfind('.'); if 0 < i < len(name) - 1: ...]. *)
Definition suffix_dot (name : str) : option nat :=
  match rfind "." name with
  | Some i => if (0 <? i) && (i <? length name - 1) then Some i else None
  | None => None
  end.

(** [PurePath.suffix]: [name[i:]], or [''] without a proper dot. *)
Definition suffix (name : str) : str :=
  match suffix_dot name with Some i => drop i name | None => [] end.

(** [PurePath.stem]: [name[:i]], or the whole name. *)
Definition stem (name : str) : str :=
  match suffix_dot name with Some i => take i name | None => name end.

(** [name[:-k]] for [k > 0]: Python clamps the end index at 0. *)
Definition drop_last (k : nat) (name : str) : str :=
  take (length name - k) name.

(** [PurePath.name] and [PurePath.parent] of a path given by components. *)
Definition name (p : Path) : str := default [] (last p).
Definition parent (p : Path) : Path := removelast p.

(** The components of a relative path string: [PurePosixPath] drops
    empty components and ['.']. *)
Definition path_parts (s : str) : list str :=
  filter (fun w => bool_decide (w <> [] /\ w <> (py "."))) (split_on "/" s).

(** [p / s]: an absolute [s] replaces [p]. *)
Definition pjoin (p : Path) (s : str) : Path :=
  if startswith s (py "/") then path_parts s else p ++ path_parts s.

(** The text [f.writelines([f + '\n' for f in l])] writes. *)
Definition lines_text (l : list str) : str :=
  concat (map (fun f => f ++ ["010"%char]) l).

(** ** Specifications of the string operations *)

Lemma endswith_spec f suf : endswith f suf = true <-> exists p, f = p ++ suf.
Proof.
  unfold endswith. rewrite bool_decide_eq_true. split.
  - intros H. exists (take (length f - length suf) f).
    rewrite <- H at 2. by rewrite take_drop.
  - intros [p ->]. rewrite length_app.
    replace (length p + length suf - length suf) with (length p) by lia.
    apply drop_app_length.
Qed.

Lemma startswith_spec f pre : startswith f pre = true <-> exists r, f = pre ++ r.
Proof.
  unfold startswith. rewrite bool_decide_eq_true. split.
  - intros H. exists (drop (length pre) f). rewrite <- H at 1. by rewrite take_drop.
  - intros [r ->]. apply take_app_length.
Qed.

Lemma contains_spec s f : contains s f = true <-> exists a b, f = a ++ s ++ b.
Proof.
  induction f as [|c f IH]; simpl; rewrite orb_true_iff, startswith_spec.
  - split.
    + intros [[r Hr]|H]; [exists [], r; exact Hr | discriminate].
    + intros ([|??] & b & H); [left; by exists b | discriminate].
  - rewrite IH. split.
    + intros [[r Hr]|(a & b & ->)]; [exists [], r; exact Hr | by exists (c :: a), b].
    + intros ([|c' a] & b & H); simpl in H; [left; by exists b |].
      right. injection H as -> ->. eauto.
Qed.

Lemma split_first_prefix sep f : exists r, f = split_first sep f ++ r.
Proof.
  induction f as [|c f [r Hr]]; simpl; [by exists [] |].
  destruct (ascii_dec c sep); [by exists (c :: f) |]. exists r. simpl. by f_equal.
Qed.

(** [f.split(sep)[0] in f] always holds. *)
Lemma contains_split_first sep f : contains (split_first sep f) f = true.
Proof.
  apply contains_spec. destruct (split_first_prefix sep f) as [r Hr]. by exists [], r.
Qed.

Lemma split_on_no_sep sep w : sep ∉ w -> split_on sep w = [w].
Proof.
  induction w as [|c w IH]; intros Hw; simpl; [done |].
  rewrite not_elem_of_cons in Hw. destruct Hw as [Hc Hw].
  destruct (ascii_dec c sep); [congruence |]. by rewrite IH.
Qed.

Lemma split_on_app_sep sep w rest :
  sep ∉ w -> split_on sep (w ++ sep :: rest) = w :: split_on sep rest.
Proof.
  induction w as [|c w IH]; intros Hw; simpl.
  - by destruct (ascii_dec sep sep).
  - rewrite not_elem_of_cons in Hw. destruct Hw as [Hc Hw].
    destruct (ascii_dec c sep); [congruence |]. by rewrite IH.
Qed.

Lemma rfind_from_none c f i acc : c ∉ f -> rfind_from c f i acc = acc.
Proof.
  revert i acc. induction f as [|x f IH]; intros i acc Hf; simpl; [done |].
  rewrite not_elem_of_cons in Hf. destruct Hf as [Hx Hf].
  destruct (ascii_dec x c); [congruence |]. by apply IH.
Qed.

Lemma rfind_from_last c a b i acc :
  c ∉ b -> rfind_from c (a ++ c :: b) i acc = Some (i + length a).
Proof.
  revert i acc. induction a as [|x a IH]; intros i acc Hb; simpl.
  - destruct (ascii_dec c c); [| congruence]. rewrite rfind_from_none by done.
    f_equal; lia.
  - rewrite IH by done. f_equal; lia.
Qed.

(** A name [a ++ "." ++ b] with a non-empty [a], a non-empty [b] and no dot
    in [b] has the suffix [.b] and the stem [a]. *)
Lemma suffix_dot_ext a b :
  a <> [] -> b <> [] -> "."%char ∉ b -> suffix_dot (a ++ "."%char :: b) = Some (length a).
Proof.
  intros Ha Hb Hd. unfold suffix_dot, rfind. rewrite rfind_from_last by done.
  destruct a as [|x a], b as [|y b]; try done. rewrite length_app. simpl.
  replace (0 <? S (length a)) with true by (symmetry; apply Nat.ltb_lt; lia).
  replace (S (length a) <? _) with true by (symmetry; apply Nat.ltb_lt; lia). done.
Qed.

Lemma suffix_ext a b :
  a <> [] -> b <> [] -> "."%char ∉ b -> suffix (a ++ "."%char :: b) = "."%char :: b.
Proof. intros. unfold suffix. rewrite suffix_dot_ext by done. apply drop_app_length. Qed.

Lemma stem_ext a b :
  a <> [] -> b <> [] -> "."%char ∉ b -> stem (a ++ "."%char :: b) = a.
Proof. intros. unfold stem. rewrite suffix_dot_ext by done. apply take_app_length. Qed.

Lemma drop_last_app k p suf : length suf = k -> drop_last k (p ++ suf) = p.
Proof.
  intros <-. unfold drop_last. rewrite length_app.
  replace (length p + length suf - length suf) with (length p) by lia.
  apply take_app_length.
Qed.

(** A single file name is one path component. *)
Lemma path_parts_name n :
  "/"%char ∉ n -> n <> [] -> n <> (py ".") -> path_parts n = [n].
Proof.
  intros Hs Hne Hdot. unfold path_parts. rewrite split_on_no_sep by done.
  rewrite filter_cons_True; [done |]. by rewrite bool_decide_true.
Qed.

Lemma pjoin_name p n :
  "/"%char ∉ n -> n <> [] -> n <> (py ".") -> pjoin p n = p ++ [n].
Proof.
  intros Hs Hne Hdot. unfold pjoin. rewrite path_parts_name by done.
  destruct (startswith n (py "/")) eqn:E; [| done].
  apply startswith_spec in E as [r ->]. exfalso. apply Hs. by left.
Qed.

(** A component of a path holds no ['/'] when no component does. *)
Lemma name_no_slash p : Forall (fun c => "/"%char ∉ c) p -> "/"%char ∉ name p.
Proof.
  intros Hp. unfold name. destruct (last p) as [c|] eqn:E; [| by apply not_elem_of_nil].
  apply last_Some_elem_of in E. by apply (proj1 (Forall_forall _ _) Hp).
Qed.

(** A name [pathlib] keeps as one component. *)
Definition valid_name (n : str) : Prop := ("/"%char ∉ n) /\ n <> [] /\ n <> (py ".").

(** [p / 'd/n'] for two valid names. *)
Lemma pjoin_rel2 p d n :
  valid_name d -> valid_name n -> pjoin p (d ++ py "/" ++ n) = p ++ [d; n].
Proof.
  intros (Hd1 & Hd2 & Hd3) (Hn1 & Hn2 & Hn3). unfold pjoin.
  assert (Hs : startswith (d ++ py "/" ++ n) (py "/") = false).
  { apply not_true_is_false. rewrite startswith_spec. intros [r Hr].
    destruct d as [|c d]; [done |]. injection Hr as -> _. apply Hd1. by left. }
  rewrite Hs. unfold path_parts. change (py "/" ++ n) with ("/"%char :: n).
  rewrite split_on_app_sep, split_on_no_sep by done.
  rewrite filter_cons_True by (by rewrite bool_decide_true).
  rewrite filter_cons_True by (by rewrite bool_decide_true). done.
Qed.

(** C6. The manifest text round-trips: [text.split('\n')] gives back
    the lines written, followed by the empty piece after the last
    newline, when no line contains a newline. *)
Theorem lines_text_roundtrip l :
  Forall (fun f => "010"%char ∉ f) l -> split_on "010" (lines_text l) = l ++ [[]].
Proof.
  induction 1 as [|f l Hf Hl IH]; [done |]. unfold lines_text in *. simpl.
  rewrite <- app_assoc. simpl. by rewrite split_on_app_sep, IH.
Qed.

Lemma lines_text_roundtrip_witness :
  Forall (fun f => "010"%char ∉ f) [py "train/scene0000_00.ply"] /\
  split_on "010" (lines_text [py "train/scene0000_00.ply"]) = [py "train/scene0000_00.ply"] ++ [[]].
Proof. split; [repeat constructor; by_decide | apply lines_text_roundtrip; repeat constructor; by_decide]. Defined.

#[export] Hint Resolve contains_split_first : scannet.

End PyStr.
