(* ===== verification/NpTable.v ===== *)
(** * The numpy arrays of the record builder (lines 28-48)

    A 2-D array is a [Table]: its rows (lists of rationals standing for
    the float64 values [read_plyfile] returns) and its number of columns,
    kept explicitly because an array with no rows still has a width.  Each
    operation is the numpy expression the script evaluates, with the
    exception numpy raises where the shapes do not fit. *)
From S2P Require Import Prelude.
From Stdlib Require Import QArith Qabs.

Module NpTable.

Record Table := mkTable { rows : list (list Q); width : nat }.

(** Syntactic equality of numbers and tables, to evaluate equations on
    concrete tables by [decide]. *)
#[export] Instance Q_eq_dec_syntactic : EqDecision Q.
Proof.
  intros [n d] [n' d'].
  destruct (decide (n = n')) as [->|Hn]; [destruct (decide (d = d')) as [->|Hd] |];
    [left | right | right]; congruence.
Defined.
#[export] Instance Table_eq_dec : EqDecision Table.
Proof. solve_decision. Defined.

(** A numpy array is rectangular. *)
Definition wf (t : Table) : Prop := Forall (fun r => length r = width t) (rows t).

Definition wfb (t : Table) : bool :=
  forallb (fun r => Nat.eqb (length r) (width t)) (rows t).

(** [a.shape[0]]. *)
Definition nrows (t : Table) : nat := length (rows t).

(** [a[:, :k]]. *)
Definition cols_upto (k : nat) (t : Table) : Table :=
  mkTable (map (take k) (rows t)) (Nat.min k (width t)).

(** The last element of a row ([row[-1]]; rows of a well-formed array
    with a column are never empty). *)
Definition last0 (r : list Q) : Q := default 0%Q (last r).

(** [a[:, -1]]: an [IndexError] when the array has no column. *)
Definition col_last (t : Table) : res (list Q) :=
  if Nat.eqb (width t) 0 then Err IndexError else Ok (map last0 (rows t)).

(** Membership up to numeric equality, as [==] on floats. *)
Definition memQ (x : Q) (l : list Q) : bool := existsb (Qeq_bool x) l.

(** The distinct values of a column, as [np.unique] returns them (in
    another order: only their number is used). *)
Fixpoint distinct (l : list Q) : list Q :=
  match l with
  | [] => []
  | x :: l' => let d := distinct l' in if memQ x d then d else x :: d
  end.

(** [np.unique(c).size]. *)
Definition unique_size (l : list Q) : nat := length (distinct l).

(** [np.isclose(a, b)] with numpy's defaults [rtol=1e-05], [atol=1e-08]:
    [|a - b| <= atol + rtol * |b|]. *)
Definition atol : Q := 1 # 100000000.
Definition rtol : Q := 1 # 100000.
Definition isclose (a b : Q) : bool :=
  Qle_bool (Qabs (a - b)) (atol + rtol * Qabs b).

(** numpy's broadcasting of one dimension. *)
Definition bcast (n m : nat) : option nat :=
  if Nat.eqb n m then Some n
  else if Nat.eqb n 1 then Some m
  else if Nat.eqb m 1 then Some n
  else None.

(** The element at [i, j] of a broadcast array: a dimension of size 1 is
    read at index 0. *)
Definition at_b (t : Table) (i j : nat) : Q :=
  nth (if Nat.eqb (width t) 1 then 0 else j)
      (nth (if Nat.eqb (nrows t) 1 then 0 else i) (rows t) []) 0%Q.

(** [np.allclose(a, b)]: a [ValueError] when the shapes do not broadcast. *)
Definition allclose (a b : Table) : res bool :=
  match bcast (nrows a) (nrows b), bcast (width a) (width b) with
  | Some R, Some C =>
      Ok (forallb (fun i => forallb (fun j => isclose (at_b a i j) (at_b b i j))
                                    (seq 0 C))
                  (seq 0 R))
  | _, _ => Err ValueError
  end.

(** [np.zeros_like(a)]. *)
Definition zeros_like (t : Table) : Table :=
  mkTable (map (map (fun _ => 0%Q)) (rows t)) (width t).

(** [np.hstack((a, np.array([c]).T))]: append the column [c]; a
    [ValueError] when the row counts differ. *)
Definition hstack_col (a : Table) (c : list Q) : res Table :=
  if Nat.eqb (nrows a) (length c)
  then Ok (mkTable (zip_with (fun r x => r ++ [x]) (rows a) c) (width a + 1))
  else Err ValueError.

(** [np.empty((0, k))]. *)
Definition empty (k : nat) : Table := mkTable [] k.

(** [set(tuple(l) for l in a.tolist())]: rows compared as tuples of
    numbers; two such sets are equal when each row of one is a row of the
    other. *)
Definition row_eqb (r r' : list Q) : bool :=
  Nat.eqb (length r) (length r') && forallb id (zip_with Qeq_bool r r').
Definition row_mem (r : list Q) (t : Table) : bool := existsb (row_eqb r) (rows t).
Definition row_set_eqb (a b : Table) : bool :=
  forallb (fun r => row_mem r b) (rows a) && forallb (fun r => row_mem r a) (rows b).

(** ** Facts about the operations *)

(** The column is constant (what line 30 means to check). *)
Definition constant_col (l : list Q) : bool :=
  match l with [] => false | x :: l' => forallb (Qeq_bool x) l' end.

Lemma memQ_Qeq x y l : x == y -> memQ x l = memQ y l.
Proof.
  intros Hxy. unfold memQ. induction l as [|z l IH]; simpl; [done |].
  rewrite IH. f_equal. apply Bool.eq_iff_eq_true. rewrite !Qeq_bool_iff.
  split; intros H; [by rewrite <- Hxy | by rewrite Hxy].
Qed.

Lemma memQ_In x l : In x l -> memQ x l = true.
Proof. intros H. apply existsb_exists. exists x. split; [done | apply Qeq_bool_refl]. Qed.

Lemma memQ_cons x y l : memQ x (y :: l) = Qeq_bool x y || memQ x l.
Proof. reflexivity. Qed.

Lemma memQ_distinct x l : memQ x (distinct l) = memQ x l.
Proof.
  induction l as [|y l IH] in x |- *; [done |]. cbn [distinct].
  destruct (memQ y (distinct l)) eqn:Hy; rewrite !memQ_cons, (IH x); [| done].
  destruct (Qeq_bool x y) eqn:Hxy; [| done]. rewrite orb_true_l.
  rewrite (memQ_Qeq x y) by (by apply Qeq_bool_iff). by rewrite <- (IH y).
Qed.

Lemma distinct_const x l :
  Forall (fun y => y == x) l -> distinct l = [] \/ exists w, distinct l = [w] /\ w == x.
Proof.
  induction l as [|y l IH]; intros Hl; simpl; [by left |].
  inversion Hl as [|? ? Hy Hl']; subst.
  destruct (IH Hl') as [-> | (w & -> & Hw)]; simpl; right.
  - by exists y.
  - replace (Qeq_bool y w || false) with true; [by exists w |].
    symmetry. apply orb_true_iff. left. apply Qeq_bool_iff. by rewrite Hy, Hw.
Qed.

(** [np.unique(c).size == 1] holds exactly for a non-empty constant column. *)
Lemma unique_size_one_iff l : unique_size l = 1%nat <-> constant_col l = true.
Proof.
  unfold unique_size. split.
  - destruct l as [|x l']; [done |]. intros Hd. simpl.
    destruct (distinct (x :: l')) as [|z [|??]] eqn:Hz; try done.
    assert (Hall : forall y, In y (x :: l') -> y == z).
    { intros y Hy. apply memQ_In in Hy. rewrite <- memQ_distinct, Hz in Hy.
      simpl in Hy. rewrite orb_false_r in Hy. by apply Qeq_bool_iff. }
    apply forallb_forall. intros y Hy. apply Qeq_bool_iff.
    rewrite (Hall x), (Hall y); [reflexivity | right | left]; done.
  - destruct l as [|x l']; [done |]. simpl. intros Hc.
    assert (Hl : Forall (fun y => y == x) l').
    { apply Forall_forall. intros y Hy. symmetry. apply Qeq_bool_iff.
      apply (proj1 (forallb_forall _ _) Hc). by apply list_elem_of_In. }
    destruct (distinct_const x l' Hl) as [-> | (w & -> & Hw)]; [done |].
    simpl. replace (Qeq_bool x w || false) with true; [done |].
    symmetry. apply orb_true_iff. left. apply Qeq_bool_iff. by rewrite Hw.
Qed.

Lemma isclose_refl x : isclose x x = true.
Proof.
  unfold isclose. apply Qle_bool_iff. unfold Qminus. rewrite Qplus_opp_r.
  apply (Qle_trans _ (atol + 0)); [done |]. apply Qplus_le_r.
  apply Qmult_le_0_compat; [done | apply Qabs_nonneg].
Qed.

Lemma bcast_diag n : bcast n n = Some n.
Proof. unfold bcast. by rewrite Nat.eqb_refl. Qed.

(** An array is close to itself: [np.allclose(a, a)] is [True]. *)
Lemma allclose_refl t : allclose t t = Ok true.
Proof.
  unfold allclose. rewrite !bcast_diag. f_equal.
  apply forallb_forall. intros i _. apply forallb_forall. intros j _.
  apply isclose_refl.
Qed.

Lemma col_last_ok t :
  width t <> 0%nat -> col_last t = Ok (map last0 (rows t)).
Proof. intros H. unfold col_last. by destruct (Nat.eqb_spec (width t) 0). Qed.

Lemma length_col_last t c : col_last t = Ok c -> length c = nrows t.
Proof.
  unfold col_last. destruct (Nat.eqb (width t) 0); intros H; inversion H.
  apply length_map.
Qed.

Lemma hstack_col_ok a c :
  nrows a = length c ->
  hstack_col a c = Ok (mkTable (zip_with (fun r x => r ++ [x]) (rows a) c) (width a + 1)).
Proof. intros H. unfold hstack_col. by rewrite H, Nat.eqb_refl. Qed.

Lemma nrows_cols_upto k t : nrows (cols_upto k t) = nrows t.
Proof. apply length_map. Qed.

Lemma nrows_zeros_like t : nrows (zeros_like t) = nrows t.
Proof. apply length_map. Qed.

(** The empty accumulator of line 42 equals, as a set, only an array with
    no rows. *)
Lemma row_set_eqb_empty k b : row_set_eqb (empty k) b = true <-> rows b = [].
Proof.
  unfold row_set_eqb, row_mem. simpl. split.
  - destruct (rows b) as [|r rs]; [done |]. simpl. intros H. discriminate H.
  - intros ->. done.
Qed.

Lemma wf_cols_upto k t : wf t -> wf (cols_upto k t).
Proof.
  unfold wf. simpl. intros H. apply Forall_map. eapply Forall_impl; [exact H |].
  intros r Hr. rewrite length_take, Hr. reflexivity.
Qed.

Lemma wf_zeros_like t : wf t -> wf (zeros_like t).
Proof.
  unfold wf. simpl. intros H. apply Forall_map. eapply Forall_impl; [exact H |].
  intros r Hr. by rewrite length_map.
Qed.

(** A cloud whose alpha column passes line 30 has at least one point. *)
Lemma alpha_check_nrows t c :
  col_last t = Ok c -> unique_size c = 1%nat -> nrows t <> 0%nat.
Proof.
  intros Hc Hu. rewrite <- (length_col_last t c Hc). by destruct c.
Qed.

(** The crop check of line 48 fails on every cloud with a point. *)
Lemma crop_check_fails k t : nrows t <> 0%nat -> row_set_eqb (empty k) (cols_upto 3 t) = false.
Proof.
  intros H. apply not_true_is_false. rewrite row_set_eqb_empty. unfold nrows in H.
  simpl. by destruct (rows t).
Qed.

(** The coordinate check of line 37 stated on rows: the first three
    values of each row of one table are close to those of the same row of
    the other. *)
Definition coords_close (g l : list (list Q)) : Prop :=
  Forall2 (fun r r' => Forall2 (fun x y => isclose x y = true) (take 3 r) (take 3 r')) g l.

Lemma take3_check (r r' : list Q) :
  (3 <= length r)%nat -> (3 <= length r')%nat ->
  forallb (fun j => isclose (nth j (take 3 r) 0) (nth j (take 3 r') 0)) (seq 0 3) = true <->
  Forall2 (fun x y => isclose x y = true) (take 3 r) (take 3 r').
Proof.
  intros H H'. pose proof (forallb_seq_Forall2 isclose 0 (take 3 r) (take 3 r')) as X.
  rewrite length_take in X. replace (Nat.min 3 (length r)) with 3%nat in X by lia.
  apply X. rewrite !length_take. lia.
Qed.

(** [np.allclose(a[:, :3], b[:, :3])] on two well-formed arrays with at
    least three columns and the same number of rows is the row-wise
    comparison [coords_close]: broadcasting plays no part. *)
Lemma allclose_rows G L :
  wf G -> wf L -> (3 <= width G)%nat -> (3 <= width L)%nat -> nrows G = nrows L ->
  allclose (cols_upto 3 G) (cols_upto 3 L) = Ok true <-> coords_close (rows G) (rows L).
Proof.
  intros HG HL HwG HwL Hn. unfold allclose, at_b.
  rewrite !nrows_cols_upto, <- Hn, bcast_diag. cbn [width cols_upto rows].
  replace (Nat.min 3 (width G)) with 3%nat by lia.
  replace (Nat.min 3 (width L)) with 3%nat by lia. rewrite bcast_diag. simpl Nat.eqb.
  rewrite (forallb_ext_in _
    (fun i => forallb (fun j => isclose (nth j (take 3 (nth i (rows G) [])) 0)
                                        (nth j (take 3 (nth i (rows L) [])) 0)) (seq 0 3))).
  2: { intros i Hi. apply in_seq in Hi. rewrite bcast_index_eq by lia.
       by rewrite <- !(map_nth (take 3) _ []). }
  assert (Hlen : length (rows G) = length (rows L)) by done.
  assert (Hrow : forall r r', In r (rows G) -> In r' (rows L) ->
    forallb (fun j => isclose (nth j (take 3 r) 0) (nth j (take 3 r') 0)) (seq 0 3) = true <->
    Forall2 (fun x y => isclose x y = true) (take 3 r) (take 3 r')).
  { intros r r' Hr Hr'. apply take3_check.
    - rewrite (proj1 (Forall_forall _ _) HG r) by (by apply list_elem_of_In). lia.
    - rewrite (proj1 (Forall_forall _ _) HL r') by (by apply list_elem_of_In). lia. }
  pose proof (forallb_seq_Forall2
    (fun r r' => forallb (fun j => isclose (nth j (take 3 r) 0) (nth j (take 3 r') 0)) (seq 0 3))
    [] (rows G) (rows L) Hlen) as X.
  unfold nrows. rewrite (Forall2_iff_in _ _ _ _ Hrow) in X. unfold coords_close.
  split; [intros H; injection H as H; by apply X | intros H; f_equal; by apply X].
Qed.

(** The spec's "alpha carries no information": a non-empty column whose
    values are all equal to one value. *)
Definition constant_values (l : list Q) : Prop :=
  exists a, l <> [] /\ Forall (fun y => y == a) l.

Lemma constant_col_spec l : constant_col l = true <-> constant_values l.
Proof.
  unfold constant_values. destruct l as [|x l]; simpl.
  - split; [done | by intros (a & [] & _)].
  - rewrite forallb_forall. split.
    + intros H. exists x. split; [done |]. constructor; [reflexivity |].
      apply Forall_forall. intros y Hy. symmetry. apply Qeq_bool_iff, H.
      by apply list_elem_of_In.
    + intros (a & _ & HF) y Hy. inversion HF as [|? ? Hx HF']; subst.
      apply Qeq_bool_iff. rewrite Hx.
      symmetry. apply (proj1 (Forall_forall _ _) HF'). by apply list_elem_of_In.
Qed.

(** Line 30 passes exactly on a constant column. *)
Lemma alpha_check_spec l : Nat.eqb (unique_size l) 1 = true <-> constant_values l.
Proof. by rewrite Nat.eqb_eq, unique_size_one_iff, constant_col_spec. Qed.

(** On two arrays with the same number of rows and at least three
    columns, [np.allclose(a[:, :3], b[:, :3])] never raises. *)
Lemma allclose_cols3_ok G L :
  (3 <= width G)%nat -> (3 <= width L)%nat -> nrows G = nrows L ->
  is_ok (allclose (cols_upto 3 G) (cols_upto 3 L)) = true.
Proof.
  intros HwG HwL Hn. unfold allclose. rewrite !nrows_cols_upto, <- Hn, bcast_diag.
  cbn [width cols_upto]. replace (Nat.min 3 (width G)) with 3%nat by lia.
  replace (Nat.min 3 (width L)) with 3%nat by lia. by rewrite bcast_diag.
Qed.

Lemma constant_values_nrows t : constant_values (map last0 (rows t)) -> nrows t <> 0%nat.
Proof. intros (a & Hne & _). unfold nrows. by destruct (rows t). Qed.

#[export] Hint Resolve isclose_refl allclose_refl wf_cols_upto wf_zeros_like : scannet.
#[export] Hint Rewrite nrows_cols_upto nrows_zeros_like : scannet_rw.

End NpTable.
