(* ===== verification/FileSystem.v ===== *)
(** * The file system the script reads and writes

    A state [FS] holds the set of directories and a finite map from file
    paths to contents.  The root [[]] is always a directory and is not
    stored.  A file holds either a point cloud (the table [read_plyfile]
    returns, as written by [save_point_cloud] of [lib/pc_utils.py], which
    is not under [src/]: modelled from the spec's "parse file -> table"
    and "write table (+ label flag) -> file") or text.  The operations are
    the [pathlib] and [open] calls of the script, with the [OSError]s
    Python raises.  [preserves I c] says that [c] keeps a property [I]
    of the tree; the rules for each operation and for [let*] and [for]
    let [preserves_tac] prove it for a whole program.  [kept_below root
    fs0] is the frame property used for the raw data. *)
From S2P Require Import Prelude PyStr NpTable.

(** The constants of lines 9-14. *)
Module Config.
Definition SCANNET_RAW_PATH : Path :=
  [py "data"; py "chrischoy"; py "datasets"; py "scannet_raw"].
Definition SCANNET_OUT_PATH : Path :=
  [py "data"; py "chrischoy"; py "datasets"; py "scannet_processed"].
Definition TRAIN_DEST : str := py "train".
Definition TEST_DEST : str := py "test".
(** The dict [SUBSETS], in its insertion order (the iteration order). *)
Definition SUBSETS : list (str * str) :=
  [(TRAIN_DEST, py "scans"); (TEST_DEST, py "scans_test")].
Definition POINTCLOUD_FILE : str := py "_vh_clean_2.ply".
End Config.

Module FileSystem.
Import NpTable.

Inductive FileData :=
| PlyFile (t : Table) (with_label : bool)
| TextFile (s : str).

Record FS := mkFS { dirs : gset Path; files : gmap Path FileData }.

#[export] Instance FileData_eq_dec : EqDecision FileData.
Proof. solve_decision. Defined.
#[export] Instance FS_eq_dec : EqDecision FS.
Proof. solve_decision. Defined.

(** [Path.is_file()] and [Path.is_dir()]. *)
Definition is_file (fs : FS) (p : Path) : bool := bool_decide (is_Some (files fs !! p)).
Definition is_dir (fs : FS) (p : Path) : bool := bool_decide (p = [] \/ p ∈ dirs fs).

(** Every path that exists, in the model's listing order. *)
Definition entries (fs : FS) : list Path := elements (dirs fs ∪ dom (files fs)).

(** [base.glob(pattern)] for a pattern of [length pats] components without
    [**]: the entries below [base] whose components match the patterns in
    turn. *)
Definition glob_match (base : Path) (pats : list (str -> bool)) (p : Path) : bool :=
  bool_decide (take (length base) p = base) &&
  Nat.eqb (length p) (length base + length pats) &&
  forallb id (zip_with (fun m n => m n) pats (drop (length base) p)).

Definition glob (fs : FS) (base : Path) (pats : list (str -> bool)) : list Path :=
  filter (fun p => glob_match base pats p = true) (entries fs).

(** fnmatch patterns: ['*'] and ['*' + suf]. *)
Definition star : str -> bool := fun _ => true.
Definition star_suffix (suf : str) : str -> bool := fun n => PyStr.endswith n suf.

(** The non-empty prefixes of a path, itself included. *)
Definition prefixes (p : Path) : list Path := map (fun i => take i p) (seq 1 (length p)).

(** [p.mkdir(parents=True, exist_ok=True)]: creates the missing
    ancestors.  When a prefix of [p] is a file, CPython's [os.mkdir]
    raises [FileExistsError] if that file is [p] itself, and
    [NotADirectoryError] if it is a proper ancestor (the path goes
    through a file); [exist_ok] does not apply since [p] is not a
    directory. *)
Definition mkdir_p (p : Path) : PyM FS unit :=
  fun fs =>
    match List.find (fun q => is_file fs q) (prefixes p) with
    | Some q => (Err (if bool_decide (q = p) then FileExistsError p else NotADirectoryError p), fs)
    | None => (Ok tt, mkFS (list_to_set (prefixes p) ∪ dirs fs) (files fs))
    end.

(** [open(p, 'w')]: [IsADirectoryError] on a directory; when the parent
    is not a directory, the first ancestor that is not one decides the
    error, as in path resolution: [NotADirectoryError] when it is a file,
    [FileNotFoundError] when it is missing. *)
Definition write_file (p : Path) (d : FileData) : PyM FS unit :=
  fun fs =>
    if is_dir fs p then (Err (IsADirectoryError p), fs)
    else if negb (is_dir fs (PyStr.parent p)) then
      match List.find (fun q => negb (is_dir fs q)) (prefixes (PyStr.parent p)) with
      | Some q => (Err (if is_file fs q then NotADirectoryError p else FileNotFoundError p), fs)
      | None => (Err (FileNotFoundError p), fs)
      end
    else (Ok tt, mkFS (dirs fs) (<[p := d]> (files fs))).

(** [save_point_cloud(t, p, with_label=..., verbose=False)]. *)
Definition save_point_cloud (t : Table) (p : Path) (with_label : bool) : PyM FS unit :=
  write_file p (PlyFile t with_label).

(** [open(p, 'w').writelines(...)] writing the text [s]. *)
Definition write_text (p : Path) (s : str) : PyM FS unit := write_file p (TextFile s).

(** [read_plyfile(p)]. *)
Definition read_plyfile (p : Path) : PyM FS Table :=
  fun fs =>
    match files fs !! p with
    | Some (PlyFile t _) => (Ok t, fs)
    | Some (TextFile _) => (Err (PlyFormatError p), fs)
    | None => (Err (if is_dir fs p then IsADirectoryError p else FileNotFoundError p), fs)
    end.

(** ** Behaviour of the operations *)

Lemma read_plyfile_ply fs p t b :
  files fs !! p = Some (PlyFile t b) -> read_plyfile p fs = (Ok t, fs).
Proof. intros H. unfold read_plyfile. by rewrite H. Qed.

Lemma write_file_ok fs p d :
  is_dir fs p = false -> is_dir fs (PyStr.parent p) = true ->
  write_file p d fs = (Ok tt, mkFS (dirs fs) (<[p := d]> (files fs))).
Proof. intros H1 H2. unfold write_file. by rewrite H1, H2. Qed.

(** An entry a one-component glob lists is a child of [base] whose name
    matches. *)
Lemma glob_one_elem fs base pat p :
  p ∈ glob fs base [pat] -> p ∈ entries fs /\ exists n, p = base ++ [n] /\ pat n = true.
Proof.
  unfold glob. rewrite list_elem_of_filter. intros [Hm Hp]. split; [done |].
  unfold glob_match in Hm. apply andb_prop in Hm as [Hm Hz].
  apply andb_prop in Hm as [Hb Hl]. apply bool_decide_eq_true in Hb.
  apply Nat.eqb_eq in Hl. simpl in Hl.
  rewrite <- (take_drop (length base) p), Hb.
  destruct (drop (length base) p) as [|n [|??]] eqn:Hd.
  - apply (f_equal length) in Hd. rewrite length_drop in Hd. simpl in Hd. lia.
  - exists n. split; [done |]. simpl in Hz. by destruct (pat n).
  - apply (f_equal length) in Hd. rewrite length_drop in Hd. simpl in Hd. lia.
Qed.

(** What a glob lists exists and lies below its base. *)
Lemma glob_elem fs base pats p : p ∈ glob fs base pats -> p ∈ entries fs /\ base `prefix_of` p.
Proof.
  unfold glob. rewrite list_elem_of_filter. intros [Hm Hp]. split; [done |].
  unfold glob_match in Hm. apply andb_prop in Hm as [Hm _]. apply andb_prop in Hm as [Hb _].
  apply bool_decide_eq_true in Hb. exists (drop (length base) p).
  rewrite <- Hb at 1. by rewrite take_drop.
Qed.

(** A glob that lists nothing in a larger tree lists nothing in a
    smaller one. *)
Lemma glob_nil_mono fs fs' base pats :
  dirs fs ⊆ dirs fs' -> files fs' = files fs ->
  glob fs' base pats = [] -> glob fs base pats = [].
Proof.
  intros Hd Hf H. destruct (glob fs base pats) as [|p ps] eqn:E; [done |].
  assert (Hp : p ∈ glob fs base pats) by (rewrite E; by left).
  unfold glob in *. apply list_elem_of_filter in Hp as [Hm Hin].
  assert (Hp' : p ∈ filter (fun p => glob_match base pats p = true) (entries fs')).
  { apply list_elem_of_filter. split; [done |]. unfold entries in *.
    apply elem_of_elements. apply elem_of_elements in Hin. rewrite Hf. set_solver. }
  rewrite H in Hp'. by apply not_elem_of_nil in Hp'.
Qed.

(** [mkdir_p] only adds directories. *)
Lemma mkdir_p_ok p fs fs' :
  mkdir_p p fs = (Ok tt, fs') ->
  fs' = mkFS (list_to_set (prefixes p) ∪ dirs fs) (files fs).
Proof. unfold mkdir_p. by case_match; intros [= <-]. Qed.

Lemma mkdir_p_fresh p fs :
  Forall (fun q => is_file fs q = false) (prefixes p) ->
  mkdir_p p fs = (Ok tt, mkFS (list_to_set (prefixes p) ∪ dirs fs) (files fs)).
Proof.
  intros H. unfold mkdir_p. destruct (List.find _ _) as [q|] eqn:E; [| done].
  apply find_some in E as [Hq Hf]. apply list_elem_of_In in Hq.
  by rewrite (proj1 (Forall_forall _ _) H q Hq) in Hf.
Qed.

(** ** Invariants of the state

    [preserves I c]: the statement [c] keeps the property [I] of the
    tree, whatever its outcome (an exception keeps the state reached). *)
Section Preserves.
Context (I : FS -> Prop).

Definition preserves {A} (c : PyM FS A) : Prop := forall fs, I fs -> I (snd (c fs)).

Lemma preserves_ret {A} (a : A) : preserves (pret a).
Proof. by intros fs. Qed.

Lemma preserves_get : preserves pget.
Proof. by intros fs. Qed.

Lemma preserves_lift {A} (r : res A) : preserves (plift r).
Proof. by intros fs. Qed.

Lemma preserves_assert l b : preserves (passert l b).
Proof. intros fs. unfold passert. by destruct b. Qed.

Lemma preserves_bind {A B} (c : PyM FS A) (k : A -> PyM FS B) :
  preserves c -> (forall a, preserves (k a)) -> preserves (pbind c k).
Proof.
  intros Hc Hk fs Hfs. unfold pbind. specialize (Hc fs Hfs).
  destruct (c fs) as [[a|e] fs'] eqn:E; simpl in *; [by apply Hk | done].
Qed.

(** A statement that reads the state (the [let* fs := pget] of the
    script) and keeps [I] for every state it may read that satisfies [I]. *)
Lemma preserves_get_bind {B} (k : FS -> PyM FS B) :
  (forall fs, I fs -> preserves (k fs)) -> preserves (pbind pget k).
Proof. intros Hk fs Hfs. by apply Hk. Qed.

Lemma preserves_for {A} (body : A -> PyM FS unit) l :
  (forall x, x ∈ l -> preserves (body x)) -> preserves (pfor body l).
Proof.
  induction l as [|x l IH]; intros Hb; simpl.
  - apply preserves_ret.
  - apply preserves_bind; [apply Hb; by left | intros _; apply IH; intros y Hy; apply Hb; by right].
Qed.

Lemma preserves_read p : preserves (read_plyfile p).
Proof. intros fs Hfs. unfold read_plyfile. by repeat case_match. Qed.

End Preserves.

#[export] Hint Resolve preserves_ret preserves_get preserves_lift preserves_assert
  preserves_read : scannet.

(** ** The part of the tree below a root is kept

    [kept_below root fs0 fs]: below [root], [fs] has the files and the
    directories of [fs0]. *)
Definition kept_below (root : Path) (fs0 fs : FS) : Prop :=
  forall p, root `prefix_of` p -> files fs !! p = files fs0 !! p /\ (p ∈ dirs fs <-> p ∈ dirs fs0).

(** An entry below [root] of a tree that keeps [fs0] there is an entry
    of [fs0]. *)
Lemma kept_below_entries root fs0 fs p :
  kept_below root fs0 fs -> root `prefix_of` p -> p ∈ entries fs -> p ∈ entries fs0.
Proof.
  intros Hk Hr. destruct (Hk p Hr) as [Hf Hd]. unfold entries.
  rewrite !elem_of_elements, !elem_of_union, !elem_of_dom, Hf, Hd. done.
Qed.

(** [mkdir] of a path none of whose prefixes is below [root]. *)
Lemma preserves_mkdir_outside root fs0 p :
  Forall (fun q => ~ root `prefix_of` q) (prefixes p) -> preserves (kept_below root fs0) (mkdir_p p).
Proof.
  intros Hp fs Hfs. unfold mkdir_p. case_match; [done |]. intros q Hq. cbn [snd files dirs].
  destruct (Hfs q Hq) as [Hf Hd]. split; [exact Hf |].
  rewrite elem_of_union, elem_of_list_to_set, <- Hd. split; [| by right].
  intros [Hin|]; [| done]. exfalso.
  exact (proj1 (Forall_forall _ _) Hp q Hin Hq).
Qed.

(** Writing a file that is not below [root]. *)
Lemma preserves_write_outside root fs0 p d :
  ~ root `prefix_of` p -> preserves (kept_below root fs0) (write_file p d).
Proof.
  intros Hp fs Hfs. unfold write_file. repeat case_match; try done.
  intros q Hq. cbn [snd files dirs]. rewrite lookup_insert_ne by (intros ->; done). by apply Hfs.
Qed.

(** Prove [preserves I c] statement by statement: binds, loops and the
    branches of [if] and [match] split; the leaves that read are closed
    by the hints, the writes are left to the caller. *)
Ltac preserves_tac :=
  repeat first
    [ apply preserves_bind; [| intros ?]
    | apply preserves_for; intros ? ?
    | progress case_match
    | solve [auto with scannet] ].

#[export] Hint Resolve read_plyfile_ply write_file_ok : scannet.
End FileSystem.
