(* ===== verification/RecordBuilder.v ===== *)
(** * The record builder: the body of the loop of lines 26-48

    [process_file phase_out f] is one iteration of the inner [for] loop
    of the script for the raw point cloud [f] and the output directory
    [phase_out]: read the cloud, check its alpha column (line 30), load
    or synthesise the labels (lines 32-39), build and save the 7-column
    table (lines 43-45), and run the crop check (line 48). *)
From S2P Require Import Prelude PyStr NpTable FileSystem.
From Stdlib Require Import QArith.

Module RecordBuilder.
Import NpTable FileSystem Config.
Local Open Scope nat_scope.

(** Line 32: [f.parent / (f.stem + '.labels' + f.suffix)]. *)
Definition label_path (f : Path) : Path :=
  PyStr.pjoin (PyStr.parent f)
    (PyStr.stem (PyStr.name f) ++ py ".labels" ++ PyStr.suffix (PyStr.name f)).

(** Line 43: [phase_out_path / (f.name[:-len(POINTCLOUD_FILE)] + f.suffix)]. *)
Definition out_path (phase_out : Path) (f : Path) : Path :=
  PyStr.pjoin phase_out
    (PyStr.drop_last (length POINTCLOUD_FILE) (PyStr.name f) ++ PyStr.suffix (PyStr.name f)).

(** Lines 32-39: the label table, read and checked against the cloud
    (lines 36-37) when the label file exists, all zeros otherwise. *)
Definition load_label (f : Path) (pointcloud : Table) : PyM FS Table :=
  let label_f := label_path f in
  let* fs := pget in
  if is_file fs label_f then
    let* label := read_plyfile label_f in
    passert 36 (Nat.eqb (nrows pointcloud) (nrows label)) ;;
    let* close := plift (allclose (cols_upto 3 pointcloud) (cols_upto 3 label)) in
    passert 37 close ;;
    pret label
  else pret (zeros_like pointcloud).

(** Lines 27-48. *)
Definition process_file (phase_out : Path) (f : Path) : PyM FS unit :=
  let* pointcloud := read_plyfile f in
  let* alpha := plift (col_last pointcloud) in
  passert 30 (Nat.eqb (unique_size alpha) 1) ;;
  let* label := load_label f pointcloud in
  let xyz := cols_upto 3 pointcloud in
  let all_points := empty 3 in
  let out_f := out_path phase_out f in
  let* label_col := plift (col_last label) in
  let* processed := plift (hstack_col (cols_upto 6 pointcloud) label_col) in
  save_point_cloud processed out_f true ;;
  passert 48 (row_set_eqb all_points xyz).

(** ** Names of the files the loop reads and writes *)

Lemma pointcloud_file_split p :
  p ++ POINTCLOUD_FILE = (p ++ py "_vh_clean_2") ++ ("."%char :: py "ply").
Proof. by rewrite <- app_assoc. Qed.

(** Side conditions of [pjoin_name] on [p ++ s] for a constant [s]. *)
Local Ltac name_ok :=
  first [ rewrite not_elem_of_app; split; [done | by_decide]
        | intros E; apply (f_equal length) in E; rewrite length_app in E; simpl in E; lia ].

(** The label file of a scan [<p>_vh_clean_2.ply] is
    [<p>_vh_clean_2.labels.ply] in the same directory. *)
Lemma label_path_scan f p :
  PyStr.name f = p ++ POINTCLOUD_FILE -> "/"%char ∉ p ->
  label_path f = PyStr.parent f ++ [p ++ py "_vh_clean_2.labels.ply"].
Proof.
  intros Hn Hp. unfold label_path. rewrite Hn, pointcloud_file_split.
  rewrite PyStr.stem_ext, PyStr.suffix_ext; try by_decide; try by destruct p.
  rewrite <- !app_assoc. apply PyStr.pjoin_name; name_ok.
Qed.

(** C11. Line 43 names the output of the scan [<p>_vh_clean_2.ply]
    [<p>.ply], in the directory [phase_out]. *)
Lemma out_path_scan phase_out f p :
  PyStr.name f = p ++ POINTCLOUD_FILE -> "/"%char ∉ p ->
  out_path phase_out f = phase_out ++ [p ++ py ".ply"].
Proof.
  intros Hn Hp. unfold out_path. rewrite Hn, PyStr.drop_last_app by done.
  rewrite pointcloud_file_split, PyStr.suffix_ext; try by_decide; try by destruct p.
  apply PyStr.pjoin_name; name_ok.
Qed.

(** C12. The label file [<p>_vh_clean_2.labels.ply] of a scan never
    matches the glob pattern ['*/*' + POINTCLOUD_FILE] of line 26: the
    loop never reads a label file as a point cloud. *)
Lemma label_name_not_scan f p :
  PyStr.name f = p ++ POINTCLOUD_FILE -> "/"%char ∉ p ->
  star_suffix POINTCLOUD_FILE (PyStr.name (label_path f)) = false.
Proof.
  intros Hn Hp. rewrite (label_path_scan f p Hn Hp). unfold PyStr.name.
  rewrite last_snoc. cbn [default from_option id]. unfold star_suffix, PyStr.endswith.
  apply bool_decide_false. rewrite length_app.
  replace (length p + length (py "_vh_clean_2.labels.ply") - length POINTCLOUD_FILE)
    with (length p + 7) by (cbn; lia).
  rewrite drop_app_add. intros E. vm_compute in E. discriminate E.
Qed.

(** ** The record the spec describes (spec 4.2 and 8)

    [record_spec G lab r]: from the geometry table [G] and the label
    table [lab] (absent when there is no label file), one file yields the
    7-column table [r] or fails with the assertion [r] names. *)
Definition merge_rows (g l : list (list Q)) : list (list Q) :=
  zip_with (fun r r' => take 6 r ++ [last0 r']) g l.

Inductive record_spec (G : Table) : option Table -> res Table -> Prop :=
| rs_alpha lab :
    ~ constant_values (map last0 (rows G)) ->
    record_spec G lab (Err (AssertionError 30))
| rs_count L :
    constant_values (map last0 (rows G)) -> nrows G <> nrows L ->
    record_spec G (Some L) (Err (AssertionError 36))
| rs_coords L :
    constant_values (map last0 (rows G)) -> nrows G = nrows L ->
    ~ coords_close (rows G) (rows L) ->
    record_spec G (Some L) (Err (AssertionError 37))
| rs_label L :
    constant_values (map last0 (rows G)) -> nrows G = nrows L ->
    coords_close (rows G) (rows L) ->
    record_spec G (Some L) (Ok (mkTable (merge_rows (rows G) (rows L)) 7))
| rs_nolabel :
    constant_values (map last0 (rows G)) ->
    record_spec G None (Ok (mkTable (map (fun r => take 6 r ++ [0%Q]) (rows G)) 7)).

(** The label table the script finds next to [f]. *)
Definition label_of (fs : FS) (f : Path) : option Table :=
  match files fs !! label_path f with Some (PlyFile L _) => Some L | _ => None end.

(** What the script does with the record [r]: a validation error leaves
    the file system as it was; a built record is saved, then the crop
    check of line 48 raises. *)
Definition record_outcome (out : Path) (r : res Table) (fs : FS) : res unit * FS :=
  match r with
  | Ok T => (Err (AssertionError 48), mkFS (dirs fs) (<[out := PlyFile T true]> (files fs)))
  | Err e => (Err e, fs)
  end.

(** ** Lemmas on the label loading of lines 32-39 *)

Lemma load_label_absent f pc fs :
  files fs !! label_path f = None -> load_label f pc fs = (Ok (zeros_like pc), fs).
Proof.
  intros H. unfold load_label. rewrite pbind_pget.
  unfold is_file. by rewrite H, bool_decide_false by (by intros []).
Qed.

Lemma load_label_present f pc fs L bl :
  files fs !! label_path f = Some (PlyFile L bl) ->
  load_label f pc fs =
    if Nat.eqb (nrows pc) (nrows L) then
      match allclose (cols_upto 3 pc) (cols_upto 3 L) with
      | Ok true => (Ok L, fs)
      | Ok false => (Err (AssertionError 37), fs)
      | Err e => (Err e, fs)
      end
    else (Err (AssertionError 36), fs).
Proof.
  intros H. unfold load_label. rewrite pbind_pget. unfold is_file.
  rewrite H, bool_decide_true by done.
  rewrite (pbind_ok _ _ _ _ _ (read_plyfile_ply _ _ _ _ H)).
  destruct (Nat.eqb _ _); [rewrite pbind_passert_true | done].
  by destruct (allclose _ _) as [[]|].
Qed.

Lemma last0_zeros (r : list Q) : last0 (map (fun _ => 0%Q) r) = 0%Q.
Proof. induction r as [|x [|y r] IH]; done. Qed.

(** With the label column of zeros that [np.zeros_like] gives. *)
Lemma merge_rows_zeros G :
  merge_rows (rows G) (rows (zeros_like G)) = map (fun r => take 6 r ++ [0%Q]) (rows G).
Proof.
  unfold merge_rows. simpl. induction (rows G) as [|r g IH]; [done |].
  simpl. by rewrite IH, last0_zeros.
Qed.

Lemma merge_rows_shape g l :
  Forall (fun r => 6 <= length r) g -> length g = length l ->
  Forall (fun r => length r = 7) (merge_rows g l) /\ length (merge_rows g l) = length g.
Proof.
  unfold merge_rows. revert l. induction g as [|r g IH]; intros [|r' l] Hg Hl; try done.
  inversion Hg as [|? ? Hr Hg']; subst. injection Hl as Hl.
  destruct (IH l Hg' Hl) as [HF Hlen]. simpl. split; [| by rewrite Hlen].
  constructor; [rewrite length_app, length_take; cbn [length]; lia | exact HF].
Qed.

(** Every record [record_spec] builds is a rectangular table of seven
    columns with one row per point of the cloud. *)
Lemma record_spec_shape G lab T :
  record_spec G lab (Ok T) -> wf G -> 6 <= width G ->
  wf T /\ width T = 7 /\ nrows T = nrows G.
Proof.
  intros HR HG Hw.
  assert (H6 : Forall (fun r => 6 <= length r) (rows G)).
  { eapply Forall_impl; [exact HG |]. simpl. lia. }
  inversion HR as [| | |L _ Hn _ |]; subst.
  - destruct (merge_rows_shape (rows G) (rows L) H6 Hn) as [HF Hl].
    split; [exact HF | split; [reflexivity | exact Hl]].
  - rewrite <- merge_rows_zeros.
    destruct (merge_rows_shape (rows G) (rows (zeros_like G)) H6) as [HF Hl];
      [simpl; by rewrite length_map |].
    split; [exact HF | split; [reflexivity | exact Hl]].
Qed.

(** ** The body, step by step *)

Section Body.
Context (phase_out f : Path) (fs : FS) (G : Table) (bg : bool).
Hypothesis HG : files fs !! f = Some (PlyFile G bg).
Let out := out_path phase_out f.

(** Line 30 fails: nothing is written. *)
Lemma process_file_alpha_err :
  width G <> 0 -> ~ constant_values (map last0 (rows G)) ->
  process_file phase_out f fs = (Err (AssertionError 30), fs).
Proof.
  intros Hw Ha. unfold process_file.
  rewrite (pbind_ok _ _ _ _ _ (read_plyfile_ply _ _ _ _ HG)), col_last_ok by done.
  rewrite pbind_plift_ok. destruct (Nat.eqb _ 1) eqn:E; [| done].
  by apply alpha_check_spec in E.
Qed.

(** The label loading raises: its exception is the script's. *)
Lemma process_file_label_err e fs' :
  width G <> 0 -> constant_values (map last0 (rows G)) ->
  load_label f G fs = (Err e, fs') -> process_file phase_out f fs = (Err e, fs').
Proof.
  intros Hw Ha HL. unfold process_file.
  rewrite (pbind_ok _ _ _ _ _ (read_plyfile_ply _ _ _ _ HG)), col_last_ok by done.
  rewrite pbind_plift_ok, (proj2 (alpha_check_spec _) Ha), pbind_passert_true.
  exact (pbind_err _ _ _ _ _ HL).
Qed.

(** The label table [T] is loaded: the merged table is saved at [out],
    then line 48 raises. *)
Lemma process_file_tail T :
  6 <= width G -> constant_values (map last0 (rows G)) ->
  load_label f G fs = (Ok T, fs) -> width T <> 0 -> nrows G = nrows T ->
  is_dir fs out = false -> is_dir fs (PyStr.parent out) = true ->
  process_file phase_out f fs =
    record_outcome out (Ok (mkTable (merge_rows (rows G) (rows T)) 7)) fs.
Proof.
  intros Hw Ha HL HwT Hn Hd Hp. unfold process_file.
  rewrite (pbind_ok _ _ _ _ _ (read_plyfile_ply _ _ _ _ HG)), col_last_ok by lia.
  rewrite pbind_plift_ok, (proj2 (alpha_check_spec _) Ha), pbind_passert_true.
  rewrite (pbind_ok _ _ _ _ _ HL), col_last_ok, pbind_plift_ok by done.
  rewrite hstack_col_ok by (by rewrite nrows_cols_upto, length_map).
  rewrite pbind_plift_ok. unfold save_point_cloud.
  rewrite (pbind_ok _ _ _ _ _ (write_file_ok _ _ _ Hd Hp)).
  rewrite crop_check_fails by (by apply constant_values_nrows).
  unfold record_outcome, merge_rows. cbn [cols_upto rows width].
  replace (Nat.min 6 (width G) + 1) with 7 by lia. rewrite zip_with_map. reflexivity.
Qed.

End Body.

(** ** Refinement *)

(** C3. Lines 27-48 implement [record_spec]: for a well-formed cloud
    with at least six columns (ScanNet's have seven) whose label file, if
    present, is a well-formed cloud with at least three columns, the
    script's outcome is the one [record_spec] gives for the cloud and the
    label table it finds.  A validation failure raises before any write;
    a built record is saved at [out_path] before line 48 raises. *)
Theorem process_file_refines phase_out f fs G bg :
  files fs !! f = Some (PlyFile G bg) -> wf G -> 6 <= width G ->
  (forall d, files fs !! label_path f = Some d ->
     exists L bl, d = PlyFile L bl /\ wf L /\ 3 <= width L) ->
  is_dir fs (out_path phase_out f) = false ->
  is_dir fs (PyStr.parent (out_path phase_out f)) = true ->
  exists r, record_spec G (label_of fs f) r /\
            process_file phase_out f fs = record_outcome (out_path phase_out f) r fs.
Proof.
  intros HG HwfG Hw Hlab Hd Hp.
  destruct (Nat.eqb (unique_size (map last0 (rows G))) 1) eqn:Ha.
  2: { exists (Err (AssertionError 30)). rewrite <- not_true_iff_false, alpha_check_spec in Ha.
       split; [by apply rs_alpha | apply (process_file_alpha_err _ _ _ _ _ HG); [lia | done]]. }
  apply alpha_check_spec in Ha. unfold label_of.
  destruct (files fs !! label_path f) as [d|] eqn:Hl.
  2: { eexists; split; [by apply rs_nolabel |]. rewrite <- merge_rows_zeros.
       apply (process_file_tail _ _ _ _ _ HG); try done; [by apply load_label_absent | | ];
         cbn; [lia | by rewrite length_map]. }
  destruct (Hlab d eq_refl) as (L & bl & -> & HwfL & HwL).
  pose proof (load_label_present f G fs L bl Hl) as HLL.
  destruct (Nat.eqb_spec (nrows G) (nrows L)) as [Hn|Hn].
  2: { exists (Err (AssertionError 36)). split; [by apply rs_count |].
       by apply (process_file_label_err _ _ _ _ _ HG); [lia | done |]. }
  pose proof (allclose_rows G L HwfG HwfL ltac:(lia) HwL Hn) as Hrows.
  pose proof (allclose_cols3_ok G L ltac:(lia) HwL Hn) as Hok.
  destruct (allclose (cols_upto 3 G) (cols_upto 3 L)) as [[]|] eqn:Hc; [| | done].
  - eexists; split; [apply rs_label; [done | done | by apply Hrows] |].
    apply (process_file_tail _ _ _ _ _ HG); try done; lia.
  - exists (Err (AssertionError 37)). split.
    + apply rs_coords; [done | done |]. rewrite <- Hrows. done.
    + by apply (process_file_label_err _ _ _ _ _ HG); [lia | done |].
Qed.

(** The loop body ends in an exception, at some state. *)
Lemma process_file_err phase_out f fs : exists e fs', process_file phase_out f fs = (Err e, fs').
Proof.
  unfold process_file. repeat py_split; try by eauto.
  rewrite crop_check_fails; [by eauto |].
  apply (alpha_check_nrows _ _ Hval). by apply Nat.eqb_eq.
Qed.

(** C1. Every run of the loop body raises: the crop check of line 48
    compares the empty [all_points] with the points of a cloud that line
    30 has already required to be non-empty. *)
Theorem process_file_raises phase_out f fs : is_ok (fst (process_file phase_out f fs)) = false.
Proof. by destruct (process_file_err phase_out f fs) as (e & fs' & ->). Qed.

(** C14. One iteration of the loop changes the tree only at
    [out_path]: it creates no directory, leaves every other file as it
    was, and what it writes there is a rectangular table of seven columns
    with one row per point of the cloud, saved with its label column. *)
Theorem process_file_writes phase_out f fs G bg :
  files fs !! f = Some (PlyFile G bg) -> wf G -> 6 <= width G ->
  (forall d, files fs !! label_path f = Some d ->
     exists L bl, d = PlyFile L bl /\ wf L /\ 3 <= width L) ->
  is_dir fs (out_path phase_out f) = false ->
  is_dir fs (PyStr.parent (out_path phase_out f)) = true ->
  dirs (snd (process_file phase_out f fs)) = dirs fs /\
  forall p x, files (snd (process_file phase_out f fs)) !! p = Some x ->
    files fs !! p = Some x \/
    (p = out_path phase_out f /\
     exists T, x = PlyFile T true /\ wf T /\ width T = 7 /\ nrows T = nrows G).
Proof.
  intros HG HwfG Hw Hlab Hd Hp.
  destruct (process_file_refines phase_out f fs G bg HG HwfG Hw Hlab Hd Hp) as (r & HR & ->).
  destruct r as [T|e]; cbn [record_outcome snd dirs files]; [| by split; [| left]].
  split; [done |]. intros p x Hx.
  destruct (decide (p = out_path phase_out f)) as [->|Hne].
  - right. split; [done |]. rewrite lookup_insert_eq in Hx. injection Hx as <-.
    exists T. split; [done |]. by apply (record_spec_shape G (label_of fs f)).
  - left. by rewrite lookup_insert_ne in Hx by done.
Qed.

(** C13. Degenerate clouds fail at line 30 before anything is written:
    a cloud without a column raises [IndexError] at [pointcloud[:, -1]],
    and a cloud with columns but without a point fails the assertion,
    since [np.unique] of an empty column has size 0. *)
Theorem process_file_degenerate phase_out f fs G bg :
  files fs !! f = Some (PlyFile G bg) -> width G = 0 \/ nrows G = 0 ->
  process_file phase_out f fs =
    (Err (if Nat.eqb (width G) 0 then IndexError else AssertionError 30), fs).
Proof.
  intros HG Hdeg. destruct (Nat.eqb_spec (width G) 0) as [Hw|Hw].
  - unfold process_file. rewrite (pbind_ok _ _ _ _ _ (read_plyfile_ply _ _ _ _ HG)).
    unfold col_last. rewrite Hw. apply pbind_plift_err.
  - apply (process_file_alpha_err _ _ _ _ _ HG Hw). intros (a & Hne & _).
    destruct Hdeg as [|Hn]; [done |]. unfold nrows in Hn. by destruct (rows G).
Qed.

(** ** What the body leaves unchanged *)

(** The output of a file whose name has no ['/'] lies in [phase_out]:
    the name given to [/] at line 43 is not absolute. *)
Lemma out_path_prefix phase_out f :
  "/"%char ∉ PyStr.name f -> phase_out `prefix_of` out_path phase_out f.
Proof.
  intros Hn. unfold out_path, PyStr.pjoin.
  destruct (PyStr.startswith _ (py "/")) eqn:E; [| by eexists].
  exfalso. apply PyStr.startswith_spec in E as [r Hr]. apply Hn.
  assert (H : "/"%char ∈ PyStr.drop_last (length POINTCLOUD_FILE) (PyStr.name f)
                         ++ PyStr.suffix (PyStr.name f)) by (rewrite Hr; by left).
  apply elem_of_app in H as [H|H].
  - exact (subseteq_take _ _ _ H).
  - unfold PyStr.suffix in H. case_match; [exact (subseteq_drop _ _ _ H) | by apply not_elem_of_nil in H].
Qed.

(** The loop body writes nothing but its output: what lies below a root
    that does not contain [out_path] is kept. *)
Lemma preserves_process_file_outside root fs0 phase_out f :
  ~ root `prefix_of` out_path phase_out f ->
  preserves (kept_below root fs0) (process_file phase_out f).
Proof.
  intros Hout. unfold process_file, load_label. preserves_tac.
  by apply preserves_write_outside.
Qed.

(** ** The trees of the spec's scenarios (spec 8), for the witnesses *)

Definition scene_dir : Path := SCANNET_RAW_PATH ++ [py "scans"; py "scene0000_00"].
Definition scan_file : Path := scene_dir ++ [py "scene0000_00_vh_clean_2.ply"].
Definition train_out : Path := SCANNET_OUT_PATH ++ [TRAIN_DEST].
Definition scan_geometry (alpha2 : Q) : Table :=
  mkTable [[0; 0; 0; 255; 0; 0; 128]; [1; 1; 1; 0; 255; 0; alpha2]]%Q 7.
Definition scan_labels : Table :=
  mkTable [[0; 0; 0; 255; 0; 0; 128; 5]; [1; 1; 1; 0; 255; 0; 128; 7]]%Q 8.
Definition scan_fs (alpha2 : Q) : FS :=
  mkFS (list_to_set (prefixes scene_dir ++ prefixes train_out))
       (<[label_path scan_file := PlyFile scan_labels false]>
          {[scan_file := PlyFile (scan_geometry alpha2) false]}).

(** A tree holding only a cloud with seven columns and no point. *)
Definition empty_cloud_fs : FS :=
  mkFS (list_to_set (prefixes scene_dir ++ prefixes train_out))
       {[scan_file := PlyFile (mkTable [] 7) false]}.

(** The hypotheses of C3 and C14 on the first scenario. *)
Lemma scan_fs_label :
  forall d, files (scan_fs 128) !! label_path scan_file = Some d ->
    exists L bl, d = PlyFile L bl /\ wf L /\ 3 <= width L.
Proof.
  intros d Hd. vm_compute in Hd. injection Hd as <-.
  exists scan_labels, false. split; [reflexivity | split; [repeat constructor | cbn; lia]].
Qed.

Lemma scan_fs_cloud : files (scan_fs 128) !! scan_file = Some (PlyFile (scan_geometry 128) false).
Proof. vm_compute. reflexivity. Qed.

Lemma scan_fs_out :
  is_dir (scan_fs 128) (out_path train_out scan_file) = false /\
  is_dir (scan_fs 128) (PyStr.parent (out_path train_out scan_file)) = true.
Proof. split; vm_compute; reflexivity. Qed.

(** Witness of C3 on the first scenario. *)
Lemma process_file_refines_witness :
  exists r, record_spec (scan_geometry 128) (label_of (scan_fs 128) scan_file) r /\
    process_file train_out scan_file (scan_fs 128) =
      record_outcome (out_path train_out scan_file) r (scan_fs 128).
Proof.
  apply (process_file_refines train_out scan_file (scan_fs 128) (scan_geometry 128) false
           scan_fs_cloud); [repeat constructor | cbn; lia | exact scan_fs_label | ..];
    apply scan_fs_out.
Defined.

(** Witness of C14 on the first scenario. *)
Lemma process_file_writes_witness :
  dirs (snd (process_file train_out scan_file (scan_fs 128))) = dirs (scan_fs 128) /\
  forall p x, files (snd (process_file train_out scan_file (scan_fs 128))) !! p = Some x ->
    files (scan_fs 128) !! p = Some x \/
    (p = out_path train_out scan_file /\
     exists T, x = PlyFile T true /\ wf T /\ width T = 7 /\ nrows T = nrows (scan_geometry 128)).
Proof.
  apply (process_file_writes train_out scan_file (scan_fs 128) (scan_geometry 128) false
           scan_fs_cloud); [repeat constructor | cbn; lia | exact scan_fs_label | ..];
    apply scan_fs_out.
Defined.

(** Witness of C11 on the scan of the scenarios. *)
Lemma out_path_scan_witness :
  PyStr.name scan_file = py "scene0000_00" ++ POINTCLOUD_FILE /\ ("/"%char ∉ py "scene0000_00") /\
  out_path train_out scan_file = train_out ++ [py "scene0000_00" ++ py ".ply"].
Proof.
  split; [vm_compute; reflexivity | split; [by_decide |]].
  apply out_path_scan; [vm_compute; reflexivity | by_decide].
Defined.

(** Witness of C12 on the scan of the scenarios. *)
Lemma label_name_not_scan_witness :
  PyStr.name scan_file = py "scene0000_00" ++ POINTCLOUD_FILE /\ ("/"%char ∉ py "scene0000_00") /\
  star_suffix POINTCLOUD_FILE (PyStr.name (label_path scan_file)) = false.
Proof.
  split; [vm_compute; reflexivity | split; [by_decide |]].
  apply (label_name_not_scan scan_file (py "scene0000_00")); [vm_compute; reflexivity | by_decide].
Defined.

(** Witness of C13: a cloud with seven columns and no point. *)
Lemma process_file_degenerate_witness :
  files empty_cloud_fs !! scan_file = Some (PlyFile (mkTable [] 7) false) /\
  (width (mkTable [] 7) = 0 \/ nrows (mkTable [] 7) = 0) /\
  process_file train_out scan_file empty_cloud_fs =
    (Err (if Nat.eqb (width (mkTable [] 7)) 0 then IndexError else AssertionError 30),
     empty_cloud_fs).
Proof.
  assert (H : files empty_cloud_fs !! scan_file = Some (PlyFile (mkTable [] 7) false))
    by (vm_compute; reflexivity).
  split; [exact H | split; [right; reflexivity |]].
  apply (process_file_degenerate _ _ _ _ _ H). right; reflexivity.
Defined.

End RecordBuilder.
