(* ===== verification/ScenePartition.v ===== *)
(** * The scene partition: lines 50-61

    The names of the processed training files, their scene ids (the text
    before the first ['_']), the shuffled list of distinct scene ids, the
    split of that list at [num_train], and the three file lists.  The
    order that [list(set(..))] and [shuffle] give is a parameter
    [shuffle]: the theorems about the script hold for every permutation. *)
From S2P Require Import Prelude PyStr NpTable FileSystem.

Module ScenePartition.
Import FileSystem Config.

(** [f'{dest}/{f}']. *)
Definition dest_path (dest f : str) : str := dest ++ py "/" ++ f.

(** Line 51: the names of the entries of [OUT/train] matching ['*.ply']. *)
Definition trainval_files (fs : FS) : list str :=
  map PyStr.name (glob fs (PyStr.pjoin SCANNET_OUT_PATH TRAIN_DEST) [star_suffix (py ".ply")]).

(** Line 52: [f.split('_')[0]]. *)
Definition scene_id (f : str) : str := PyStr.split_first "_" f.

(** Lines 52-53: [list(set(...))], then [shuffle]. *)
Definition trainval_scenes (shuffle : list str -> list str) (files : list str) : list str :=
  shuffle (remove_dups (map scene_id files)).

(** Line 54: [int(len(trainval_scenes))]. *)
Definition num_train (scenes : list str) : nat := length scenes.

(** Lines 59-60: the files containing one of [scenes] as a substring,
    prefixed with [TRAIN_DEST]. *)
Definition select (scenes files : list str) : list str :=
  map (dest_path TRAIN_DEST)
      (filter (fun f => existsb (fun s => PyStr.contains s f) scenes = true) files).

(** Line 61. *)
Definition test_files (fs : FS) : list str :=
  map (fun p => dest_path TEST_DEST (PyStr.name p))
      (glob fs (PyStr.pjoin SCANNET_OUT_PATH TEST_DEST) [star_suffix (py ".ply")]).

(** The three lists of lines 59-61. *)
Record Lists := mkLists { train_files : list str; val_files : list str; tst_files : list str }.

(** The split of lines 55-60 at an arbitrary count [n]. *)
Definition split_at (n : nat) (scenes files : list str) : list str * list str :=
  (select (take n scenes) files, select (drop n scenes) files).

(** Lines 51-61. *)
Definition partition (shuffle : list str -> list str) (fs : FS) : Lists :=
  let tv := trainval_files fs in
  let scenes := trainval_scenes shuffle tv in
  let '(tr, va) := split_at (num_train scenes) scenes tv in
  mkLists tr va (test_files fs).

(** ** The split the script computes *)

Lemma select_nil files : select [] files = [].
Proof. unfold select. induction files as [|f files IH]; [done |]. by rewrite filter_cons_False. Qed.

(** Every file contains its own scene id. *)
Lemma select_own_scene scenes files :
  (forall f, f ∈ files -> scene_id f ∈ scenes) ->
  select scenes files = map (dest_path TRAIN_DEST) files.
Proof.
  intros H. unfold select. f_equal. apply filter_all. intros f Hf.
  apply existsb_exists. exists (scene_id f). split.
  - apply list_elem_of_In, H, Hf.
  - apply PyStr.contains_split_first.
Qed.

Lemma scene_id_in shuffle files f :
  (forall l, shuffle l ≡ₚ l) -> f ∈ files -> scene_id f ∈ trainval_scenes shuffle files.
Proof.
  intros Hsh Hf. unfold trainval_scenes. rewrite (Hsh _), elem_of_remove_dups.
  by apply list_elem_of_fmap_2.
Qed.

(** The lists the script computes, for every order the shuffle gives. *)
Lemma partition_eq shuffle fs :
  (forall l, shuffle l ≡ₚ l) ->
  partition shuffle fs = mkLists (map (dest_path TRAIN_DEST) (trainval_files fs)) [] (test_files fs).
Proof.
  intros Hsh. unfold partition, split_at, num_train. simpl.
  rewrite take_ge, drop_all, select_nil by done. f_equal.
  apply select_own_scene. intros f Hf. by apply scene_id_in.
Qed.

(** C4. [num_train = int(len(trainval_scenes))] sends every scene to
    train: the validation list is always empty. *)
Theorem partition_val_empty shuffle fs : val_files (partition shuffle fs) = [].
Proof. unfold partition, split_at, num_train. simpl. by rewrite drop_all, select_nil. Qed.

(** C5. For every order the shuffle gives, the train list is every
    processed training file, prefixed with [train/], in listing order. *)
Theorem partition_train_all shuffle fs :
  (forall l, shuffle l ≡ₚ l) ->
  train_files (partition shuffle fs) = map (dest_path TRAIN_DEST) (trainval_files fs).
Proof.
  intros Hsh. by rewrite partition_eq.
Qed.

(** Witness of C5: the identity order. *)
Lemma partition_train_all_witness :
  (forall l : list str, id l ≡ₚ l) /\
  train_files (partition id (mkFS ∅ ∅)) = map (dest_path TRAIN_DEST) (trainval_files (mkFS ∅ ∅)).
Proof. split; [intros l; reflexivity | apply (partition_train_all id); intros l; reflexivity]. Defined.

End ScenePartition.
