(* ===== verification/Manifest.v ===== *)
(** * The sanity checks and the manifest files: lines 63-75

    [sanity_checks] is the four [assert]s of lines 64-67 on the lists
    [ScenePartition.partition] computes; [write_manifests] writes the
    three lists, one path per line, to [train.txt], [val.txt] and
    [test.txt] under the output root. *)
From S2P Require Import Prelude PyStr NpTable FileSystem ScenePartition.

Module Manifest.
Import FileSystem Config ScenePartition.

(** Line 64: [not set(tr).intersection(va)]. *)
Definition disjoint_check (tr va : list str) : bool :=
  forallb (fun f => negb (bool_decide (f ∈ va))) tr.

(** Lines 65-67: [all((SCANNET_OUT_PATH / f).is_file() for f in l)]. *)
Definition all_exist (fs : FS) (l : list str) : bool :=
  forallb (fun f => is_file fs (PyStr.pjoin SCANNET_OUT_PATH f)) l.

(** Lines 63-67. *)
Definition sanity_checks (l : Lists) : PyM FS unit :=
  passert 64 (disjoint_check (train_files l) (val_files l)) ;;
  let* fs := pget in
  passert 65 (all_exist fs (train_files l)) ;;
  passert 66 (all_exist fs (val_files l)) ;;
  passert 67 (all_exist fs (tst_files l)).

Definition manifest_path (name : str) : Path := PyStr.pjoin SCANNET_OUT_PATH name.

(** Lines 69-75. *)
Definition write_manifests (l : Lists) : PyM FS unit :=
  write_text (manifest_path (py "train.txt")) (PyStr.lines_text (train_files l)) ;;
  write_text (manifest_path (py "val.txt")) (PyStr.lines_text (val_files l)) ;;
  write_text (manifest_path (py "test.txt")) (PyStr.lines_text (tst_files l)).

(** ** The checks on the script's lists *)

Lemma pjoin_dest dest :
  PyStr.valid_name dest -> PyStr.pjoin SCANNET_OUT_PATH dest = SCANNET_OUT_PATH ++ [dest].
Proof. intros (H1 & H2 & H3). by apply PyStr.pjoin_name. Qed.

Lemma valid_dests : PyStr.valid_name TRAIN_DEST /\ PyStr.valid_name TEST_DEST.
Proof. split; (split; [by_decide | split; by_decide]). Qed.

(** The relative paths listed for the glob of [OUT/dest] resolve to the
    globbed entries. *)
Lemma all_exist_glob fs dest pat :
  PyStr.valid_name dest ->
  (forall p, p ∈ glob fs (PyStr.pjoin SCANNET_OUT_PATH dest) [pat] ->
     is_file fs p = true /\ PyStr.valid_name (PyStr.name p)) ->
  all_exist fs (map (fun p => dest_path dest (PyStr.name p))
                    (glob fs (PyStr.pjoin SCANNET_OUT_PATH dest) [pat])) = true.
Proof.
  intros Hd Hall. unfold all_exist. rewrite forallb_map. apply forallb_forall.
  intros p Hp%list_elem_of_In. destruct (Hall p Hp) as [Hf Hn].
  destruct (glob_one_elem _ _ _ _ Hp) as (_ & n & Hpn & _).
  unfold dest_path. rewrite PyStr.pjoin_rel2 by done.
  rewrite Hpn, pjoin_dest in * by done. unfold PyStr.name in *.
  rewrite last_snoc. cbn [default from_option id]. by rewrite <- app_assoc in Hf.
Qed.

Lemma disjoint_check_nil tr : disjoint_check tr [] = true.
Proof. unfold disjoint_check. apply forallb_forall. intros f _. by rewrite bool_decide_false by set_solver. Qed.


(** C7. The sanity checks of lines 64-67 pass on the script's lists,
    and change nothing, as soon as every entry of [train/] and [test/]
    matching ['*.ply'] is a regular file with a proper name (a directory
    named [x.ply] there makes line 65 or 67 fail). *)
Theorem sanity_checks_pass shuffle fs :
  (forall l, shuffle l ≡ₚ l) ->
  (forall dest p, dest = TRAIN_DEST \/ dest = TEST_DEST ->
     p ∈ glob fs (PyStr.pjoin SCANNET_OUT_PATH dest) [star_suffix (py ".ply")] ->
     is_file fs p = true /\ PyStr.valid_name (PyStr.name p)) ->
  sanity_checks (partition shuffle fs) fs = (Ok tt, fs).
Proof.
  intros Hsh Hall. destruct valid_dests as [Htr Hte]. unfold sanity_checks.
  rewrite partition_eq by done. cbn [train_files val_files tst_files].
  rewrite disjoint_check_nil, pbind_passert_true, pbind_pget.
  unfold trainval_files. rewrite map_map.
  rewrite (all_exist_glob fs TRAIN_DEST (star_suffix (py ".ply")))
    by (done || (intros p Hp; exact (Hall TRAIN_DEST p (or_introl eq_refl) Hp))).
  rewrite pbind_passert_true. unfold test_files.
  rewrite (all_exist_glob fs TEST_DEST (star_suffix (py ".ply")))
    by (done || (intros p Hp; exact (Hall TEST_DEST p (or_intror eq_refl) Hp))).
  done.
Qed.

(** The manifest files are children of the output root. *)
Lemma manifest_path_child n :
  PyStr.valid_name n -> manifest_path n = SCANNET_OUT_PATH ++ [n] /\
  PyStr.parent (manifest_path n) = SCANNET_OUT_PATH.
Proof.
  intros Hn. unfold manifest_path. rewrite pjoin_dest by done. split; [done |].
  unfold PyStr.parent. apply removelast_last.
Qed.

Definition manifest_names : list str := [py "train.txt"; py "val.txt"; py "test.txt"].

(** C8. When the output root is a directory and no manifest path is a
    directory, lines 69-75 write the three lists, one path and a newline
    per entry, to [train.txt], [val.txt] and [test.txt]. *)
Theorem write_manifests_spec l fs :
  is_dir fs SCANNET_OUT_PATH = true ->
  Forall (fun n => is_dir fs (manifest_path n) = false) manifest_names ->
  write_manifests l fs =
    (Ok tt, mkFS (dirs fs)
      (<[manifest_path (py "test.txt") := TextFile (PyStr.lines_text (tst_files l))]>
       (<[manifest_path (py "val.txt") := TextFile (PyStr.lines_text (val_files l))]>
        (<[manifest_path (py "train.txt") := TextFile (PyStr.lines_text (train_files l))]>
         (files fs))))).
Proof.
  intros Hout Hnd. inversion Hnd as [|? ? D1 Hnd1]; inversion Hnd1 as [|? ? D2 Hnd2];
    inversion Hnd2 as [|? ? D3 _]; subst.
  assert (Hp : forall n, PyStr.valid_name n -> is_dir fs (PyStr.parent (manifest_path n)) = true).
  { intros n Hn. by rewrite (proj2 (manifest_path_child n Hn)). }
  assert (Hv : Forall PyStr.valid_name manifest_names).
  { repeat constructor; by_decide. }
  inversion Hv as [|? ? V1 Hv1]; inversion Hv1 as [|? ? V2 Hv2]; inversion Hv2 as [|? ? V3 _].
  unfold write_manifests, write_text.
  rewrite (pbind_ok _ _ _ _ _ (write_file_ok _ _ _ D1 (Hp _ V1))).
  rewrite (pbind_ok _ _ _ _ _ (write_file_ok (mkFS _ _) _ _ D2 (Hp _ V2))).
  by rewrite (write_file_ok (mkFS _ _) _ _ D3 (Hp _ V3)).
Qed.

(** ** Witnesses *)

(** An output tree holding one processed training file. *)
Definition out_fs : FS :=
  mkFS (list_to_set (prefixes (SCANNET_OUT_PATH ++ [TRAIN_DEST])))
       {[SCANNET_OUT_PATH ++ [TRAIN_DEST; py "scene0000_00.ply"] := TextFile []]}.

(** Witness of C7 on [out_fs]. *)
Lemma sanity_checks_pass_witness :
  (forall l : list str, id l ≡ₚ l) /\
  (forall dest p, dest = TRAIN_DEST \/ dest = TEST_DEST ->
     p ∈ glob out_fs (PyStr.pjoin SCANNET_OUT_PATH dest) [star_suffix (py ".ply")] ->
     is_file out_fs p = true /\ PyStr.valid_name (PyStr.name p)) /\
  sanity_checks (partition id out_fs) out_fs = (Ok tt, out_fs).
Proof.
  assert (Hall : forall dest p, dest = TRAIN_DEST \/ dest = TEST_DEST ->
     p ∈ glob out_fs (PyStr.pjoin SCANNET_OUT_PATH dest) [star_suffix (py ".ply")] ->
     is_file out_fs p = true /\ PyStr.valid_name (PyStr.name p)).
  { intros dest p [-> | ->] Hp; vm_compute in Hp.
    - apply list_elem_of_singleton in Hp as ->.
      split; [vm_compute; reflexivity | split; [by_decide | split; by_decide]].
    - by apply not_elem_of_nil in Hp. }
  split; [intros l; reflexivity | split; [exact Hall |]].
  apply sanity_checks_pass; [intros l; reflexivity | exact Hall].
Defined.

(** Witness of C8 on [out_fs]. *)
Lemma write_manifests_spec_witness :
  is_dir out_fs SCANNET_OUT_PATH = true /\
  Forall (fun n => is_dir out_fs (manifest_path n) = false) manifest_names /\
  write_manifests (partition id out_fs) out_fs =
    (Ok tt, mkFS (dirs out_fs)
      (<[manifest_path (py "test.txt") := TextFile (PyStr.lines_text (tst_files (partition id out_fs)))]>
       (<[manifest_path (py "val.txt") := TextFile (PyStr.lines_text (val_files (partition id out_fs)))]>
        (<[manifest_path (py "train.txt") := TextFile (PyStr.lines_text (train_files (partition id out_fs)))]>
         (files out_fs))))).
Proof.
  assert (Hd : is_dir out_fs SCANNET_OUT_PATH = true) by (vm_compute; reflexivity).
  assert (Hn : Forall (fun n => is_dir out_fs (manifest_path n) = false) manifest_names)
    by (repeat constructor; vm_compute; reflexivity).
  split; [exact Hd | split; [exact Hn | apply write_manifests_spec; [exact Hd | exact Hn]]].
Defined.

(** ** What the checks and the manifests leave unchanged *)

Lemma preserves_sanity_checks I l : preserves I (sanity_checks l).
Proof. unfold sanity_checks. preserves_tac. Qed.

(** The manifests are written under the output root, outside the raw
    data. *)
Lemma preserves_write_manifests fs0 l :
  preserves (kept_below SCANNET_RAW_PATH fs0) (write_manifests l).
Proof.
  unfold write_manifests, write_text.
  repeat (apply preserves_bind; [| intros _]); apply preserves_write_outside; by_decide.
Qed.

End Manifest.
