(* ===== verification/Script.v ===== *)
(** * The whole script: lines 22-75

    [preprocess_subset] is one iteration of the outer loop of line 23
    (the output directory, the glob of line 26 and the inner loop);
    [run] is the script: both subsets in the order of [SUBSETS], then
    the split, the checks and the manifests.  The glob of line 26 is a
    lazy generator in Python; the inner loop only writes under
    [SCANNET_OUT_PATH], which is not below [SCANNET_RAW_PATH], so
    listing the entries when the loop starts gives the same files. *)
From S2P Require Import Prelude PyStr NpTable FileSystem RecordBuilder ScenePartition Manifest.
From Stdlib Require Import QArith.

Module Script.
Import FileSystem Config RecordBuilder ScenePartition Manifest.

(** The pattern ['*/*' + POINTCLOUD_FILE] of line 26. *)
Definition scan_pattern : list (str -> bool) := [star; star_suffix POINTCLOUD_FILE].

(** Lines 24-48 for one entry [(out_path, in_path)] of [SUBSETS]. *)
Definition preprocess_subset (sub : str * str) : PyM FS unit :=
  let phase_out_path := PyStr.pjoin SCANNET_OUT_PATH (fst sub) in
  mkdir_p phase_out_path ;;
  let* fs := pget in
  pfor (process_file phase_out_path)
       (glob fs (PyStr.pjoin SCANNET_RAW_PATH (snd sub)) scan_pattern).

(** Lines 22-75; [shuffle] is the order [shuffle] gives the scene list. *)
Definition run (shuffle : list str -> list str) : PyM FS unit :=
  pfor preprocess_subset SUBSETS ;;
  let* fs := pget in
  let lists := partition shuffle fs in
  sanity_checks lists ;;
  write_manifests lists.

(** ** One subset *)

(** The directory tree after [mkdir] of the output directory of [sub]. *)
Definition after_mkdir (sub : str * str) (fs : FS) : FS :=
  mkFS (list_to_set (prefixes (PyStr.pjoin SCANNET_OUT_PATH (fst sub))) ∪ dirs fs) (files fs).

(** The loop of one subset ends normally only when its glob lists
    nothing; it then has only created directories. *)
Lemma preprocess_subset_ok sub fs fs' :
  preprocess_subset sub fs = (Ok tt, fs') ->
  glob fs' (PyStr.pjoin SCANNET_RAW_PATH (snd sub)) scan_pattern = [] /\
  dirs fs ⊆ dirs fs' /\ files fs' = files fs.
Proof.
  unfold preprocess_subset.
  destruct (mkdir_p (PyStr.pjoin SCANNET_OUT_PATH (fst sub)) fs) as [[[]|e] fs1] eqn:Hm; [| by rewrite (pbind_err _ _ _ _ _ Hm)].
  rewrite (pbind_ok _ _ _ _ _ Hm), pbind_pget. apply mkdir_p_ok in Hm. subst fs1.
  destruct (glob _ _ scan_pattern) as [|x xs] eqn:Hg.
  - intros [= <-]. split; [done |]. split; [simpl; set_solver | done].
  - destruct (process_file_err (PyStr.pjoin SCANNET_OUT_PATH (fst sub)) x
                  (mkFS (list_to_set (prefixes (PyStr.pjoin SCANNET_OUT_PATH (fst sub)))
                          ∪ dirs fs) (files fs))) as (e & fs2 & E).
    by rewrite (pfor_cons_err _ _ _ _ _ _ E).
Qed.

(** The loop of a subset whose glob lists nothing only creates the
    output directory. *)
Lemma preprocess_subset_empty sub fs :
  Forall (fun q => is_file fs q = false) (prefixes (PyStr.pjoin SCANNET_OUT_PATH (fst sub))) ->
  glob (after_mkdir sub fs) (PyStr.pjoin SCANNET_RAW_PATH (snd sub)) scan_pattern = [] ->
  preprocess_subset sub fs = (Ok tt, after_mkdir sub fs).
Proof.
  intros Hm Hg. unfold preprocess_subset.
  rewrite (pbind_ok _ _ _ _ _ (mkdir_p_fresh _ _ Hm)), pbind_pget.
  fold (after_mkdir sub fs). by rewrite Hg.
Qed.

(** The loop of a subset whose glob lists [x] first is the body of the
    loop on [x]: the body always raises. *)
Lemma preprocess_subset_first sub fs x xs :
  Forall (fun q => is_file fs q = false) (prefixes (PyStr.pjoin SCANNET_OUT_PATH (fst sub))) ->
  glob (after_mkdir sub fs) (PyStr.pjoin SCANNET_RAW_PATH (snd sub)) scan_pattern = x :: xs ->
  preprocess_subset sub fs =
    process_file (PyStr.pjoin SCANNET_OUT_PATH (fst sub)) x (after_mkdir sub fs).
Proof.
  intros Hm Hg. unfold preprocess_subset.
  rewrite (pbind_ok _ _ _ _ _ (mkdir_p_fresh _ _ Hm)), pbind_pget.
  fold (after_mkdir sub fs). rewrite Hg.
  destruct (process_file_err (PyStr.pjoin SCANNET_OUT_PATH (fst sub)) x
              (after_mkdir sub fs)) as (e & fs2 & E).
  by rewrite (pfor_cons_err _ _ _ _ _ _ E), E.
Qed.

(** ** The run *)

Definition train_subset : str * str := (TRAIN_DEST, py "scans").
Definition test_subset : str * str := (TEST_DEST, py "scans_test").

(** C9. The script ends without an exception only if neither raw
    subset holds a single file matching ['*/*_vh_clean_2.ply']: with any
    scan present, the first loop body raises and the split, the checks
    and the manifests are never reached. *)
Theorem run_ok_no_scans shuffle fs :
  fst (run shuffle fs) = Ok tt ->
  glob fs (PyStr.pjoin SCANNET_RAW_PATH (snd train_subset)) scan_pattern = [] /\
  glob fs (PyStr.pjoin SCANNET_RAW_PATH (snd test_subset)) scan_pattern = [].
Proof.
  unfold run, SUBSETS. cbn [pfor]. rewrite !pbind_assoc.
  destruct (preprocess_subset train_subset fs) as [[[]|e] fs1] eqn:E1;
    [| by rewrite (pbind_err _ _ _ _ _ E1)].
  rewrite (pbind_ok _ _ _ _ _ E1), !pbind_assoc.
  destruct (preprocess_subset test_subset fs1) as [[[]|e] fs2] eqn:E2;
    [| by rewrite (pbind_err _ _ _ _ _ E2)].
  intros _. apply preprocess_subset_ok in E1 as (G1 & D1 & F1).
  apply preprocess_subset_ok in E2 as (G2 & D2 & F2). split.
  - exact (glob_nil_mono _ _ _ _ D1 F1 G1).
  - apply (glob_nil_mono _ fs2); [set_solver | congruence | exact G2].
Qed.

(** C10. When the output directory [train/] can be created and the glob
    of [scans/] lists the scan [x] first, the whole run is the loop body
    on [x]: its outcome and its final file system are those of
    [process_file] (which [process_file_refines] describes). *)
Theorem run_first_scan shuffle fs x xs :
  Forall (fun q => is_file fs q = false)
         (prefixes (PyStr.pjoin SCANNET_OUT_PATH (fst train_subset))) ->
  glob (after_mkdir train_subset fs) (PyStr.pjoin SCANNET_RAW_PATH (snd train_subset))
       scan_pattern = x :: xs ->
  run shuffle fs =
    process_file (PyStr.pjoin SCANNET_OUT_PATH TRAIN_DEST) x (after_mkdir train_subset fs).
Proof.
  intros Hm Hg. unfold run, SUBSETS. cbn [pfor]. rewrite !pbind_assoc.
  change (TRAIN_DEST, py "scans") with train_subset.
  unfold pbind at 1. rewrite (preprocess_subset_first _ _ _ _ Hm Hg).
  destruct (process_file_err (PyStr.pjoin SCANNET_OUT_PATH TRAIN_DEST) x
              (after_mkdir train_subset fs)) as (e & fs2 & E).
  change (fst train_subset) with TRAIN_DEST. by rewrite E.
Qed.

(** ** The raw data is kept *)

(** No path of the tree has a component with a ['/'] (a POSIX file
    name never has one). *)
Definition names_ok (fs : FS) : Prop := Forall (fun p => Forall (fun c => "/"%char ∉ c) p) (entries fs).

Lemma raw_not_prefix_out r : ~ SCANNET_RAW_PATH `prefix_of` SCANNET_OUT_PATH ++ r.
Proof.
  intros [k Hk]. apply (f_equal (take (length SCANNET_OUT_PATH))) in Hk.
  rewrite take_app_length in Hk. change (length SCANNET_OUT_PATH) with (length SCANNET_RAW_PATH) in Hk.
  rewrite take_app_length in Hk. vm_compute in Hk. congruence.
Qed.

(** The two entries of [SUBSETS]: the output directory lies under the
    output root, the raw directory under the raw root, and [mkdir]
    creates nothing below the raw root. *)
Lemma subsets_paths sub :
  sub ∈ SUBSETS ->
  (exists r, PyStr.pjoin SCANNET_OUT_PATH (fst sub) = SCANNET_OUT_PATH ++ r) /\
  SCANNET_RAW_PATH `prefix_of` PyStr.pjoin SCANNET_RAW_PATH (snd sub) /\
  Forall (fun q => ~ SCANNET_RAW_PATH `prefix_of` q) (prefixes (PyStr.pjoin SCANNET_OUT_PATH (fst sub))).
Proof.
  intros Hsub. repeat (apply elem_of_cons in Hsub as [->|Hsub]; [| ]);
    [| | by apply not_elem_of_nil in Hsub];
    (split; [eexists; vm_compute; reflexivity | split; [by eexists | by_decide]]).
Qed.

(** One subset keeps the raw data when the names of the input tree
    [fs0] have no ['/']: its outputs are written in its output
    directory. *)
Lemma preserves_preprocess_subset fs0 sub :
  names_ok fs0 -> sub ∈ SUBSETS ->
  preserves (kept_below SCANNET_RAW_PATH fs0) (preprocess_subset sub).
Proof.
  intros Hn Hsub. destruct (subsets_paths sub Hsub) as ([r Hout] & Hraw & Hmk).
  unfold preprocess_subset. apply preserves_bind; [by apply preserves_mkdir_outside | intros _].
  apply preserves_get_bind. intros fs Hfs. apply preserves_for. intros f Hf.
  apply preserves_process_file_outside. rewrite Hout. intros Hp.
  destruct (glob_elem _ _ _ _ Hf) as [He Hb].
  assert (Hname : "/"%char ∉ PyStr.name f).
  { apply PyStr.name_no_slash. apply (proj1 (Forall_forall _ _) Hn).
    apply (kept_below_entries _ _ _ _ Hfs); [etransitivity; [exact Hraw | exact Hb] | exact He]. }
  destruct (out_path_prefix (SCANNET_OUT_PATH ++ r) f Hname) as [k Hk].
  rewrite Hk, <- app_assoc in Hp. exact (raw_not_prefix_out _ Hp).
Qed.

(** C2. The script never changes the raw data: when no file or
    directory name of the input tree has a ['/'], every file and
    directory below [SCANNET_RAW_PATH] is, at the end of the run and
    whatever its outcome, as it was.  All writes and [mkdir]s go below
    [SCANNET_OUT_PATH]. *)
Theorem run_keeps_raw shuffle fs :
  names_ok fs -> kept_below SCANNET_RAW_PATH fs (snd (run shuffle fs)).
Proof.
  intros Hn. apply (preserves_bind _ _ _); [| | done].
  - apply preserves_for. intros sub Hsub. by apply preserves_preprocess_subset.
  - intros _. apply preserves_get_bind. intros fs' _.
    apply preserves_bind; [apply preserves_sanity_checks | intros _; apply preserves_write_manifests].
Qed.

(** The tree after both output directories are created. *)
Definition mkdirs (fs : FS) : FS := after_mkdir test_subset (after_mkdir train_subset fs).

(** C15. When no raw scan is found, the script ends normally: it creates
    [train/] and [test/] under the output root and writes the three
    manifests, and these list the processed files already present in
    [train/] and [test/] (outputs of an earlier run), with [val.txt]
    empty.  The hypotheses are those of [mkdir] (no prefix of an output
    directory is a file), of the sanity checks (every [*.ply] entry there
    is a file with a proper name) and of [open] (no manifest path is a
    directory). *)
Theorem run_no_scans_spec shuffle fs :
  (forall l, shuffle l ≡ₚ l) ->
  Forall (fun q => is_file fs q = false)
    (prefixes (PyStr.pjoin SCANNET_OUT_PATH TRAIN_DEST) ++
     prefixes (PyStr.pjoin SCANNET_OUT_PATH TEST_DEST)) ->
  glob (after_mkdir train_subset fs) (PyStr.pjoin SCANNET_RAW_PATH (snd train_subset))
       scan_pattern = [] ->
  glob (mkdirs fs) (PyStr.pjoin SCANNET_RAW_PATH (snd test_subset)) scan_pattern = [] ->
  (forall dest p, dest = TRAIN_DEST \/ dest = TEST_DEST ->
     p ∈ glob (mkdirs fs) (PyStr.pjoin SCANNET_OUT_PATH dest) [star_suffix (py ".ply")] ->
     is_file (mkdirs fs) p = true /\ PyStr.valid_name (PyStr.name p)) ->
  Forall (fun n => is_dir (mkdirs fs) (manifest_path n) = false) manifest_names ->
  run shuffle fs =
    (Ok tt, mkFS (dirs (mkdirs fs))
      (<[manifest_path (py "test.txt") := TextFile (PyStr.lines_text (test_files (mkdirs fs)))]>
       (<[manifest_path (py "val.txt") := TextFile (PyStr.lines_text [])]>
        (<[manifest_path (py "train.txt") :=
             TextFile (PyStr.lines_text (map (dest_path TRAIN_DEST) (trainval_files (mkdirs fs))))]>
         (files fs))))).
Proof.
  intros Hsh Hm Hg1 Hg2 Hall Hnd. apply Forall_app in Hm as [Hm1 Hm2].
  unfold run, SUBSETS. cbn [pfor]. rewrite !pbind_assoc.
  change (TRAIN_DEST, py "scans") with train_subset.
  change (TEST_DEST, py "scans_test") with test_subset.
  rewrite (pbind_ok _ _ _ _ _ (preprocess_subset_empty train_subset fs Hm1 Hg1)), pbind_assoc.
  rewrite (pbind_ok _ _ _ _ _ (preprocess_subset_empty test_subset (after_mkdir train_subset fs) Hm2 Hg2)).
  fold (mkdirs fs). rewrite pbind_pret, pbind_pget.
  rewrite (pbind_ok _ _ _ _ _ (sanity_checks_pass _ _ Hsh Hall)).
  assert (Hout : is_dir (mkdirs fs) SCANNET_OUT_PATH = true).
  { unfold is_dir. apply bool_decide_eq_true. right. cbn [mkdirs after_mkdir dirs].
    apply elem_of_union_r, elem_of_union_l, elem_of_list_to_set. by_decide. }
  rewrite (write_manifests_spec _ _ Hout Hnd). by rewrite partition_eq by done.
Qed.

(** ** Witnesses *)

(** Witness of C2 on the tree of the scenarios of [RecordBuilder]. *)
Lemma run_keeps_raw_witness :
  names_ok (scan_fs 128%Q) /\ kept_below SCANNET_RAW_PATH (scan_fs 128%Q) (snd (run id (scan_fs 128%Q))).
Proof.
  assert (H : names_ok (scan_fs 128%Q)) by by_decide.
  split; [exact H | exact (run_keeps_raw id _ H)].
Defined.

(** Witness of C9: on an empty tree the script ends normally. *)
Lemma run_ok_no_scans_witness :
  fst (run id (mkFS ∅ ∅)) = Ok tt /\
  glob (mkFS ∅ ∅) (PyStr.pjoin SCANNET_RAW_PATH (snd train_subset)) scan_pattern = [] /\
  glob (mkFS ∅ ∅) (PyStr.pjoin SCANNET_RAW_PATH (snd test_subset)) scan_pattern = [].
Proof.
  assert (H : fst (run id (mkFS ∅ ∅)) = Ok tt) by (vm_compute; reflexivity).
  split; [exact H | exact (run_ok_no_scans id _ H)].
Defined.

(** Witness of C10 on the tree of the first scenario: the run is the loop
    body on [scan_file]. *)
Lemma run_first_scan_witness :
  Forall (fun q => is_file (scan_fs 128%Q) q = false)
         (prefixes (PyStr.pjoin SCANNET_OUT_PATH (fst train_subset))) /\
  glob (after_mkdir train_subset (scan_fs 128%Q)) (PyStr.pjoin SCANNET_RAW_PATH (snd train_subset))
       scan_pattern = [scan_file] /\
  run id (scan_fs 128%Q) =
    process_file (PyStr.pjoin SCANNET_OUT_PATH TRAIN_DEST) scan_file
                 (after_mkdir train_subset (scan_fs 128%Q)).
Proof.
  assert (Hm : Forall (fun q => is_file (scan_fs 128%Q) q = false)
                      (prefixes (PyStr.pjoin SCANNET_OUT_PATH (fst train_subset))))
    by (repeat constructor; vm_compute; reflexivity).
  assert (Hg : glob (after_mkdir train_subset (scan_fs 128%Q))
                    (PyStr.pjoin SCANNET_RAW_PATH (snd train_subset)) scan_pattern = [scan_file])
    by (vm_compute; reflexivity).
  split; [exact Hm | split; [exact Hg | exact (run_first_scan id _ _ _ Hm Hg)]].
Defined.

(** Witness of C15: no raw scan, one processed file left by an earlier
    run in [train/]; it is listed in [train.txt]. *)
Lemma run_no_scans_spec_witness :
  (forall dest p, dest = TRAIN_DEST \/ dest = TEST_DEST ->
     p ∈ glob (mkdirs out_fs) (PyStr.pjoin SCANNET_OUT_PATH dest) [star_suffix (py ".ply")] ->
     is_file (mkdirs out_fs) p = true /\ PyStr.valid_name (PyStr.name p)) /\
  run id out_fs =
    (Ok tt, mkFS (dirs (mkdirs out_fs))
      (<[manifest_path (py "test.txt") := TextFile (PyStr.lines_text (test_files (mkdirs out_fs)))]>
       (<[manifest_path (py "val.txt") := TextFile (PyStr.lines_text [])]>
        (<[manifest_path (py "train.txt") :=
             TextFile (PyStr.lines_text (map (dest_path TRAIN_DEST) (trainval_files (mkdirs out_fs))))]>
         (files out_fs))))).
Proof.
  assert (Hall : forall dest p, dest = TRAIN_DEST \/ dest = TEST_DEST ->
     p ∈ glob (mkdirs out_fs) (PyStr.pjoin SCANNET_OUT_PATH dest) [star_suffix (py ".ply")] ->
     is_file (mkdirs out_fs) p = true /\ PyStr.valid_name (PyStr.name p)).
  { intros dest p [-> | ->] Hp; vm_compute in Hp.
    - apply list_elem_of_singleton in Hp as ->.
      split; [vm_compute; reflexivity | split; [by_decide | split; by_decide]].
    - by apply not_elem_of_nil in Hp. }
  split; [exact Hall |].
  apply run_no_scans_spec; [intros l; reflexivity | repeat constructor; vm_compute; reflexivity
    | vm_compute; reflexivity | vm_compute; reflexivity | exact Hall
    | repeat constructor; vm_compute; reflexivity].
Defined.

End Script.
